(** * Span decoding and coverage evaluation of the ASTE chunker

    A shallow embedding of the span-boundary code of the repository:

    - [TransformerWithAggregation.construct_spans_ranges]
      (aste/models/model_elements/embeddings/transformer_embeddings.py),
    - [Trainer._model_out_for_metrics], [Trainer._get_predicted_spans],
      [Trainer._count_intersection] and [Trainer.check_coverage_detected_spans]
      (aste/trainer.py).

    Token indices, offsets and span components are Python / int64 integers
    far below any overflow and are modelled as [Z].  Class scores are
    float32 values; they are only compared with [0.5] and copied, never
    combined arithmetically, so they are modelled by Rocq's binary64
    primitive floats, into which every float32 embeds exactly.  A raised
    Python exception is an explicit [Raise] result. *)

From Stdlib Require Import ZArith List Bool Lia QArith Floats Sorted.
From stdpp Require Import base gmap list strings.
Import ListNotations.

Local Open Scope Z_scope.

(** ** Exceptions and the result monad *)

Inductive exn : Type :=
| IndexError
| ValueError
| RuntimeError
| ZeroDivisionError.

Inductive result (A : Type) : Type :=
| Raise (e : exn)
| Return (a : A).

Arguments Raise {A} e.
Arguments Return {A} a.

#[global] Instance result_ret : MRet result := fun A a => Return a.
#[global] Instance result_bind : MBind result := fun A B f m =>
  match m with
  | Raise e => Raise e
  | Return a => f a
  end.

(** A [for] loop whose body may raise: the accumulator is threaded from
    left to right and the first exception aborts the loop. *)
Fixpoint foldM {A B : Type} (f : A -> B -> result A) (acc : A) (l : list B)
  : result A :=
  match l with
  | [] => Return acc
  | x :: l' => acc' ← f acc x; foldM f acc' l'
  end.

(** A [for] loop that appends one computed element per iteration. *)
Fixpoint forM {A B : Type} (f : A -> result B) (l : list A) : result (list B) :=
  match l with
  | [] => Return []
  | x :: l' => y ← f x; ys ← forM f l'; Return (y :: ys)
  end.

(** ** Data model *)

(** Modelled from the spec: the enumeration [ChunkCode]
    (ASTE.dataset.domain.const) is not part of the sources.  The spec lists
    its members and orders a class-score pair as (not-split, split); the
    decoder reads column 1 as the split score, so [NOT_SPLIT] is class 0
    and [SPLIT] is class 1.  The integer behind [NOT_RELEVANT] is not used
    by the code embedded here. *)
Inductive ChunkCode : Type := NOT_SPLIT | SPLIT | NOT_RELEVANT.

Definition int_ChunkCode_NOT_SPLIT : Z := 0.

(** A span is an inclusive pair [(start, end)] of token indices. *)
Definition span : Type := (Z * Z)%type.

(** A two-dimensional float array: [shape1] is its last dimension
    ([shape[-1]]) and [rows] its rows in order. *)
Record ndarray2 : Type := mk_ndarray2 {
  shape1 : nat;
  rows : list (list float)
}.

Definition ndarray2_wf (a : ndarray2) : Prop :=
  Forall (fun r => length r = shape1 a) (rows a).

(** One element of a batch.  [words_mask] is what
    [sentence_obj[0].get_sub_words_mask(force_true_mask=True)] returns (the
    method is not part of the sources, its value is data of the sample);
    [sub_words_mask] is row 0 of the tensor of the same name; [true_spans]
    is what [sentence_obj[0].get_all_unordered_spans()] returns. *)
Record Sample : Type := mk_Sample {
  sentence : list Z;
  mask : list Z;
  sub_words_mask : list Z;
  words_mask : list Z;
  encoded_sentence_length : nat;
  offset : Z;
  true_spans : list span
}.

(** Truth value of an integer used as a condition ([.bool()], [np.where]). *)
Definition truthy (x : Z) : bool := negb (x =? 0).

(** ** Array helpers *)

(** Indices of the non-zero entries, counted from [i]:
    [np.where(a)[0]] and [t.nonzero()] for a one-dimensional array. *)
Fixpoint nonzero_from (i : Z) (l : list Z) : list Z :=
  match l with
  | [] => []
  | x :: l' =>
      if truthy x then i :: nonzero_from (i + 1) l'
      else nonzero_from (i + 1) l'
  end.

Definition nonzero (l : list Z) : list Z := nonzero_from 0 l.

(** Windows of two adjacent elements, step one:
    [sliding_window_view(a, 2)] and [t.unfold(0, 2, 1)]. *)
Fixpoint windows2 (l : list Z) : list (Z * Z) :=
  match l with
  | a :: (b :: _) as t => (a, b) :: windows2 t
  | _ => []
  end.

(** [spans[:, 1] -= 1] on one row. *)
Definition dec_end (w : Z * Z) : span := (fst w, snd w - 1).

(** [np.where(cond, x, y)] for one-dimensional [cond] and [x] and a scalar
    [y], with numpy's broadcasting of a length-one operand. *)
Definition np_where (cond x : list Z) (y : Z) : result (list Z) :=
  let pick c v := if truthy c then v else y in
  if (length cond =? length x)%nat then Return (zip_with pick cond x)
  else match cond, x with
       | [c], _ => Return (map (pick c) x)
       | _, [v] => Return (map (fun c => pick c v) cond)
       | _, _ => Raise ValueError
       end.

(** [np.pad(a, 1, constant_values=(before, after))]. *)
Definition np_pad1 (a : list Z) (before after : Z) : list Z :=
  [before] ++ a ++ [after].

(** [a[:, 1]]: column 1 of a two-dimensional array. *)
Definition column1 (a : ndarray2) : result (list float) :=
  if (shape1 a <? 2)%nat then Raise IndexError
  else Return (map (fun r => nth 1 r 0%float) (rows a)).

(** [np.where(col >= 0.5, 1, 0)]. *)
Definition binarize (col : list float) : list Z :=
  map (fun s => if (0.5 <=? s)%float then 1 else 0) col.

(** ** TransformerWithAggregation.construct_spans_ranges *)

(** A one-dimensional index tensor after [squeeze()]: squeezing the
    [k x 1] result of [nonzero()] gives a vector of length [k], except for
    [k = 1], where every dimension is dropped and a scalar remains. *)
Inductive tensor1 : Type :=
| Scalar (x : Z)
| Vector (v : list Z).

Definition squeeze (idx : list Z) : tensor1 :=
  match idx with
  | [x] => Scalar x
  | _ => Vector idx
  end.

(** [torch.nn.functional.pad(t, [l, r], mode='constant', value=v)]; a
    zero-dimensional tensor cannot be padded. *)
Definition F_pad (t : tensor1) (l r : nat) (v : Z) : result tensor1 :=
  match t with
  | Scalar _ => Raise RuntimeError
  | Vector a => Return (Vector (replicate l v ++ a ++ replicate r v))
  end.

(** [t.unfold(0, 2, 1)]; the window must fit in the tensor. *)
Definition unfold_0_2_1 (t : tensor1) : result (list (Z * Z)) :=
  match t with
  | Scalar _ => Raise RuntimeError
  | Vector a =>
      if (length a <? 2)%nat then Raise RuntimeError
      else Return (windows2 a)
  end.

(** Body of the loop over the samples of a batch. *)
Definition construct_spans_ranges_sample (sample : Sample)
  : result (list span) :=
  let words_mask := words_mask sample in
  let spans := squeeze (nonzero words_mask) in
  spans ← F_pad spans 1 0 0;
  spans ← F_pad spans 0 1 (Z.of_nat (encoded_sentence_length sample) - 1);
  spans ← F_pad spans 0 1 (Z.of_nat (encoded_sentence_length sample));
  unfolded_spans ← unfold_0_2_1 spans;
  Return (map dec_end unfolded_spans).

Definition construct_spans_ranges (batch : list Sample)
  : result (list (list span)) :=
  forM construct_spans_ranges_sample batch.

(** ** Trainer *)

Section Trainer.

(** [self.predict(sample.sentence, sample.mask).cpu().numpy()[0]]: the
    per-token scorer is an external collaborator. *)
Variable predict : list Z -> list Z -> ndarray2.

(** The part of [_get_predicted_spans] up to and including [np.pad]: the
    boundary sequence handed to [sliding_window_view]. *)
Definition _predicted_boundaries (sample : Sample) : result (list Z) :=
  let offset := offset sample in
  let predictions := predict (sentence sample) (mask sample) in
  predictions ← column1 predictions;
  let predictions := binarize predictions in
  let predictions := take (encoded_sentence_length sample) predictions in
  let sub_mask :=
    take (encoded_sentence_length sample) (sub_words_mask sample) in
  predictions ← np_where sub_mask predictions int_ChunkCode_NOT_SPLIT;
  Return (np_pad1 (nonzero predictions) offset
            (Z.of_nat (length predictions) - offset)).

(** [np.delete(spans, np.where(spans[:, 0] > spans[:, 1]), axis=0)]. *)
Definition delete_degenerate (spans : list span) : list span :=
  List.filter (fun s => negb (fst s >? snd s)) spans.

Definition _get_predicted_spans (sample : Sample) : result (list span) :=
  predictions ← _predicted_boundaries sample;
  let predicted_spans := windows2 predictions in
  let predicted_spans := map dec_end predicted_spans in
  Return (delete_degenerate predicted_spans).

(** [len(set(predicted_spans).intersection(set(true_spans)))]: both
    arguments are turned into sets of [(start, end)] tuples first. *)
Definition _count_intersection (true_spans predicted_spans : list span) : Z :=
  let predicted_spans : gset span := list_to_set predicted_spans in
  let true_spans : gset span := list_to_set true_spans in
  Z.of_nat (size (predicted_spans ∩ true_spans)).

(** The three counters of [check_coverage_detected_spans]. *)
Record counters : Type := mk_counters {
  num_predicted : Z;
  num_correct_predicted : Z;
  true_num : Z
}.

(** Body of the inner loop, for one sample. *)
Definition coverage_sample (c : counters) (sample : Sample) : result counters :=
  predicted_spans ← _get_predicted_spans sample;
  let true_spans := true_spans sample in
  Return {|
    num_predicted := num_predicted c + Z.of_nat (length predicted_spans);
    num_correct_predicted :=
      num_correct_predicted c + _count_intersection true_spans predicted_spans;
    true_num := true_num c + Z.of_nat (length true_spans)
  |}.

(** The two nested loops over the batches of [data] and their samples. *)
Definition coverage_counters (data : list (list Sample)) : result counters :=
  foldM (fun c batch => foldM coverage_sample c batch)
        (mk_counters 0 0 0) data.

(** [a / b] on Python integers.  Python returns the double nearest to the
    exact quotient; the exact quotient is kept here.  Rounding to nearest
    is monotone and leaves 0 and 1 fixed, so bounds by 0 and 1 carry over
    to the double. *)
Definition py_truediv (a b : Z) : result Q :=
  if b =? 0 then Raise ZeroDivisionError
  else Return (inject_Z a / inject_Z b)%Q.

(** What a call of [check_coverage_detected_spans] produces: the returned
    [ratio] and the number of extracted spans written to the log. *)
Record coverage : Type := mk_coverage {
  ratio : Q;
  extracted_spans : Z
}.

Definition check_coverage_detected_spans (data : list (list Sample))
  : result coverage :=
  c ← coverage_counters data;
  ratio ← py_truediv (num_correct_predicted c) (true_num c);
  Return {| ratio := ratio; extracted_spans := num_predicted c |}.

(** The binarized predictions after truncation and sub-word masking, for
    a mask and a score array that both cover the sentence. *)
Definition masked_predictions (sample : Sample) : list Z :=
  zip_with (fun c v => if truthy c then v else int_ChunkCode_NOT_SPLIT)
    (take (encoded_sentence_length sample) (sub_words_mask sample))
    (take (encoded_sentence_length sample)
       (binarize (map (fun r => nth 1 r 0%float)
                      (rows (predict (sentence sample) (mask sample)))))).

(** The input contract of the decoder: at least two classes per token,
    and a score array and a mask that cover the whole sentence. *)
Definition well_shaped (sample : Sample) : Prop :=
  (2 <= shape1 (predict (sentence sample) (mask sample)))%nat /\
  (encoded_sentence_length sample
   <= length (rows (predict (sentence sample) (mask sample))))%nat /\
  (encoded_sentence_length sample <= length (sub_words_mask sample))%nat.

End Trainer.

(** [fill_value = torch.zeros(n); fill_value[i] = 1.]; a negative index
    counts from the end. *)
Definition one_hot (n : nat) (i : Z) : result (list float) :=
  let j := if i <? 0 then Z.of_nat n + i else i in
  if (j <? 0) || (Z.of_nat n <=? j) then Raise IndexError
  else Return (<[Z.to_nat j := 1%float]> (replicate n 0%float)).

(** [torch.where(cond, x, y)] for [cond] of shape [R x 1], [x] of shape
    [R' x C] and [y] of shape [C], with broadcasting of a dimension of
    size one. *)
Definition torch_where (cond : list bool) (x : ndarray2) (y : list float)
  : result ndarray2 :=
  let pick (c : bool) (r : list float) := if c then r else y in
  if (length cond =? length (rows x))%nat
  then Return (mk_ndarray2 (shape1 x) (zip_with pick cond (rows x)))
  else match cond, rows x with
       | [c], xs => Return (mk_ndarray2 (shape1 x) (map (pick c) xs))
       | cs, [r] => Return (mk_ndarray2 (shape1 x) (map (fun c => pick c r) cs))
       | _, _ => Raise RuntimeError
       end.

(** [Trainer._model_out_for_metrics] (a static method).  [model_out] is
    the two-dimensional view [test] passes in; [batch.sub_words_mask] is
    the row-major flattening of the masks of the samples. *)
Definition _model_out_for_metrics (model_out : ndarray2) (batch : list Sample)
  : result ndarray2 :=
  fill_value ← one_hot (shape1 model_out) int_ChunkCode_NOT_SPLIT;
  let sub_mask := map truthy (concat (map sub_words_mask batch)) in
  torch_where sub_mask model_out fill_value.

(** ** Properties of spans, masks and counters *)

(** A span is a non-empty inclusive range. *)
Definition span_valid (s : span) : Prop := fst s <= snd s.

(** [s] lies entirely before [t]. *)
Definition precedes (s t : span) : Prop := snd s < fst t.

(** Every earlier span lies entirely before every later one. *)
Definition non_overlapping (l : list span) : Prop := StronglySorted precedes l.

(** Starts strictly increase along the sequence. *)
Definition ordered_by_start (l : list span) : Prop :=
  StronglySorted (fun s t => fst s < fst t) l.

(** Number of true entries of a mask. *)
Definition count_true (m : list Z) : nat := length (List.filter truthy m).


(** The vector with 1 at the class index of [NOT_SPLIT] and 0 at every
    other of the [n] class indices. *)
Definition not_split_vector (n : nat) (fill : list float) : Prop :=
  length fill = n /\
  forall j : nat, (j < n)%nat ->
    fill !! j = Some (if Z.of_nat j =? int_ChunkCode_NOT_SPLIT
                      then 1%float else 0%float).

(** Exact equality of two spans, component by component. *)
Definition exact_match (p t : span) : bool :=
  (fst p =? fst t) && (snd p =? snd t).

(** The number of distinct predicted spans that are equal to some
    reference span in both components. *)
Definition intersection_cardinality (predicted reference : list span) : nat :=
  length (List.filter (fun p => existsb (exact_match p) reference)
            (remove_dups predicted)).

(** The number of reference spans over a whole dataset. *)
Definition total_reference (data : list (list Sample)) : Z :=
  Z.of_nat (length (concat (map true_spans (concat data)))).

(** [c'] is reached from [c] by counting samples with [n] reference spans
    in all. *)
Definition counted (c c' : counters) (n : Z) : Prop :=
  true_num c' = true_num c + n /\
  num_predicted c <= num_predicted c' /\
  num_correct_predicted c <= num_correct_predicted c' /\
  num_correct_predicted c' - num_correct_predicted c <= n.

(** ** Example inputs *)

(** Six tokens whose split score reaches the threshold at 0, 3 and 5. *)
Definition example_scores : ndarray2 :=
  mk_ndarray2 2
    [[0.25; 0.75]; [0.75; 0.25]; [0.75; 0.25];
     [0.25; 0.75]; [0.75; 0.25]; [0.25; 0.75]]%float.

Definition example_predict (_ _ : list Z) : ndarray2 := example_scores.

Definition example_sample : Sample := {|
  sentence := [11; 12; 13; 14; 15; 16];
  mask := [1; 1; 1; 1; 1; 1];
  sub_words_mask := [1; 0; 0; 1; 0; 1];
  words_mask := [1; 0; 0; 1; 0; 1];
  encoded_sentence_length := 6;
  offset := 0;
  true_spans := [(0, 2); (3, 4); (6, 7)]
|}.

(** The same sentence with one reserved leading token. *)
Definition example_sample_offset1 : Sample := {|
  sentence := [11; 12; 13; 14; 15; 16];
  mask := [1; 1; 1; 1; 1; 1];
  sub_words_mask := [1; 0; 0; 1; 0; 1];
  words_mask := [1; 0; 0; 1; 0; 1];
  encoded_sentence_length := 6;
  offset := 1;
  true_spans := [(1, 2); (3, 4)]
|}.

(** The scores of [example_scores] changed at the three positions where
    the mask of [example_sample] is false. *)
Definition example_scores_noisy : ndarray2 :=
  mk_ndarray2 2
    [[0.25; 0.75]; [0.125; 0.875]; [0; 1];
     [0.25; 0.75]; [0.5; 0.5]; [0.25; 0.75]]%float.

Definition example_predict_noisy (_ _ : list Z) : ndarray2 :=
  example_scores_noisy.

(** The first five tokens of [example_sample]: the decoder returns the
    spans (0,2) and (3,4). *)
Definition example_sample_short : Sample := {|
  sentence := [11; 12; 13; 14; 15; 16];
  mask := [1; 1; 1; 1; 1; 1];
  sub_words_mask := [1; 0; 0; 1; 0; 1];
  words_mask := [1; 0; 0; 1; 0; 1];
  encoded_sentence_length := 5;
  offset := 0;
  true_spans := [(0, 2); (3, 4); (6, 7)]
|}.

(** A sample without reference spans. *)
Definition example_sample_unlabelled : Sample := {|
  sentence := [11; 12; 13; 14; 15; 16];
  mask := [1; 1; 1; 1; 1; 1];
  sub_words_mask := [1; 0; 0; 1; 0; 1];
  words_mask := [1; 0; 0; 1; 0; 1];
  encoded_sentence_length := 6;
  offset := 0;
  true_spans := []
|}.

(** A model output of three rows and two classes, for a batch of two
    samples with three mask entries in all. *)
Definition example_model_out : ndarray2 :=
  mk_ndarray2 2 [[0.25; 0.75]; [0.125; 0.875]; [0.75; 0.25]]%float.

Definition example_batch : list Sample :=
  [ mk_Sample [11; 12] [1; 1] [1; 0] [1; 0] 2 0 [];
    mk_Sample [13] [1] [1] [1] 1 0 [] ].

(** ** Further properties of span sequences *)

(** [t] starts at the index right after the end of [s]. *)
Definition adjacent (s t : span) : Prop := fst t = snd s + 1.

(** Every span starts right after the one before it: the sequence covers
    a range of indices without gap or overlap. *)
Definition contiguous (l : list span) : Prop := Sorted adjacent l.

(** All components of the span lie in [0, n - 1]. *)
Definition span_within (n : Z) (s : span) : Prop :=
  0 <= fst s /\ fst s <= snd s /\ snd s <= n - 1.

(** Four tokens, none of which reaches the split threshold. *)
Definition example_scores_flat : ndarray2 :=
  mk_ndarray2 2 [[0.75; 0.25]; [1; 0]; [0.75; 0.25]; [0.625; 0.375]]%float.

Definition example_predict_flat (_ _ : list Z) : ndarray2 :=
  example_scores_flat.

Definition example_sample_flat : Sample := {|
  sentence := [21; 22; 23; 24];
  mask := [1; 1; 1; 1];
  sub_words_mask := [1; 1; 0; 1];
  words_mask := [1; 1; 0; 1];
  encoded_sentence_length := 4;
  offset := 0;
  true_spans := [(0, 3)]
|}.

(** Scores with a single class per token. *)
Definition example_scores_one_class : ndarray2 :=
  mk_ndarray2 1 [[0.75]; [0.25]; [0.5]]%float.

Definition example_predict_one_class (_ _ : list Z) : ndarray2 :=
  example_scores_one_class.

(** A sample whose mask stops after four of its six tokens. *)
Definition example_sample_short_mask : Sample := {|
  sentence := [11; 12; 13; 14; 15; 16];
  mask := [1; 1; 1; 1; 1; 1];
  sub_words_mask := [1; 0; 0; 1];
  words_mask := [1; 0; 0; 1];
  encoded_sentence_length := 6;
  offset := 0;
  true_spans := []
|}.

(** [example_sample_short] followed by padding: two more scores and mask
    entries beyond its five tokens. *)
Definition example_scores_padded : ndarray2 :=
  mk_ndarray2 2
    [[0.25; 0.75]; [0.75; 0.25]; [0.75; 0.25];
     [0.25; 0.75]; [0.75; 0.25]; [0; 1]; [0; 1]]%float.

Definition example_predict_padded (_ _ : list Z) : ndarray2 :=
  example_scores_padded.

Definition example_sample_padded : Sample := {|
  sentence := [11; 12; 13; 14; 15; 0; 0];
  mask := [1; 1; 1; 1; 1; 0; 0];
  sub_words_mask := [1; 0; 0; 1; 0; 1; 1];
  words_mask := [1; 0; 0; 1; 0];
  encoded_sentence_length := 5;
  offset := 0;
  true_spans := [(0, 2); (3, 4)]
|}.

(** A sentence whose mask marks a single word start. *)
Definition example_sample_one_word : Sample := {|
  sentence := [31; 32; 33];
  mask := [1; 1; 1];
  sub_words_mask := [0; 1; 0];
  words_mask := [0; 1; 0];
  encoded_sentence_length := 3;
  offset := 1;
  true_spans := []
|}.

(** A sentence of seven tokens whose first and last token are reserved:
    the mask is false there and marks the word starts 1, 3 and 4. *)
Definition example_sample_reserved : Sample := {|
  sentence := [101; 41; 42; 43; 44; 45; 102];
  mask := [1; 1; 1; 1; 1; 1; 1];
  sub_words_mask := [0; 1; 0; 1; 1; 0; 0];
  words_mask := [0; 1; 0; 1; 1; 0; 0];
  encoded_sentence_length := 7;
  offset := 1;
  true_spans := [(1, 2); (4, 5)]
|}.

(** A sample whose reference spans are exactly what the decoder finds for
    [example_predict]. *)
Definition example_sample_exact : Sample := {|
  sentence := [11; 12; 13; 14; 15; 16];
  mask := [1; 1; 1; 1; 1; 1];
  sub_words_mask := [1; 0; 0; 1; 0; 1];
  words_mask := [1; 0; 0; 1; 0; 1];
  encoded_sentence_length := 6;
  offset := 0;
  true_spans := [(3, 4); (0, 2)]
|}.

(** A sample is recovered when the decoder returns for it and finds every
    one of its reference spans, none of which is listed twice. *)
Definition recovered (predict : list Z -> list Z -> ndarray2) (sample : Sample)
  : Prop :=
  exists spans,
    _get_predicted_spans predict sample = Return spans /\
    NoDup (true_spans sample) /\
    forall r, In r (true_spans sample) -> In r spans.

(** A model output without any class column. *)
Definition example_model_out_no_class : ndarray2 :=
  mk_ndarray2 0 [[]; []; []].

(** A model output with one row less than [example_batch] has mask
    entries. *)
Definition example_model_out_two_rows : ndarray2 :=
  mk_ndarray2 2 [[0.25; 0.75]; [0.125; 0.875]]%float.

(** ** Memory: the early-stopping record of the trainer *)

(** The exceptions of [Memory], and a call that either raises ([inl]) or
    returns ([inr]). *)
Inductive py_exn : Type :=
| KeyError
| AttributeError.

Definition outcome (A : Type) : Type := (py_exn + A)%type.

(** The two entries of the global [config] that [Memory] reads, and the
    number of epochs [Trainer.train] reads.  [early_stopping] is
    [config['model']['early-stopping']] (an integer or [None]),
    [early_stopping_objective_cfg] is
    [config['model']['early-stopping-objective']] ([None] when the key is
    absent).  Strings are sequences of one-byte characters, which is what
    the objective names are. *)
Record Config : Type := mk_Config {
  early_stopping : option Z;
  early_stopping_objective_cfg : option string;
  epochs : Z
}.

(** ASCII letters, and [str.upper] / [str.lower] on one character. *)
Definition ascii_is_upper (c : Ascii.ascii) : bool :=
  (65 <=? Ascii.nat_of_ascii c)%nat && (Ascii.nat_of_ascii c <=? 90)%nat.

Definition ascii_is_lower (c : Ascii.ascii) : bool :=
  (97 <=? Ascii.nat_of_ascii c)%nat && (Ascii.nat_of_ascii c <=? 122)%nat.

Definition ascii_upper (c : Ascii.ascii) : Ascii.ascii :=
  if ascii_is_lower c then Ascii.ascii_of_nat (Ascii.nat_of_ascii c - 32)
  else c.

Definition ascii_lower (c : Ascii.ascii) : Ascii.ascii :=
  if ascii_is_upper c then Ascii.ascii_of_nat (Ascii.nat_of_ascii c + 32)
  else c.

Fixpoint str_lower (s : string) : string :=
  match s with
  | EmptyString => EmptyString
  | String c s' => String (ascii_lower c) (str_lower s')
  end.

(** [s.capitalize()]: the first character in upper case, the others in
    lower case. *)
Definition capitalize (s : string) : string :=
  match s with
  | EmptyString => EmptyString
  | String c s' => String (ascii_upper c) (str_lower s')
  end.

(** [sub in s]: [sub] occurs in [s] as a substring. *)
Fixpoint py_in (sub s : string) : bool :=
  String.prefix sub s ||
  match s with
  | EmptyString => false
  | String _ s' => py_in sub s'
  end.

(** The built-in bound to [self.func]. *)
Inductive selector : Type := py_min | py_max.

(** [min(a, b)] and [max(a, b)] on floats: the second argument replaces
    the first when it is strictly smaller, respectively strictly
    greater. *)
Definition py_select (f : selector) (a b : float) : float :=
  match f with
  | py_min => if (b <? a)%float then b else a
  | py_max => if (a <? b)%float then b else a
  end.

(** The attributes of a [Memory] object.  [func] and [best_value] are
    [None] when [__init__] did not set them. *)
Record Memory : Type := mk_Memory {
  best_epoch : Z;
  opt_direction : string;
  func : option selector;
  best_value : option float;
  patience : option Z;
  early_stopping_objective : option string
}.

(** [Memory.__init__]. *)
Definition Memory_init (config : Config) (opt_direction : string)
  : outcome Memory :=
  let '(func, best_value) :=
    if String.eqb opt_direction "min" then (Some py_min, Some infinity)
    else if String.eqb opt_direction "max"
         then (Some py_max, Some neg_infinity)
         else (None, None) in
  let patience := early_stopping config in
  match patience with
  | None =>
      inr (mk_Memory 0 opt_direction func best_value patience None)
  | Some _ =>
      match early_stopping_objective_cfg config with
      | None => inl KeyError
      | Some objective =>
          let objective := capitalize objective in
          let objective :=
            if py_in "Loss" objective then "Test_loss" else objective in
          inr (mk_Memory 0 opt_direction func best_value patience
                 (Some objective))
      end
  end.

(** [Memory.update]: the new state of the object and the returned
    [improvement].  [values_dict] has string keys, so the key [None] of an
    object without objective is never found. *)
Definition update (m : Memory) (epoch : Z) (values_dict : gmap string float)
  : outcome (Memory * bool) :=
  match early_stopping_objective m with
  | None => inl KeyError
  | Some key =>
      match values_dict !! key with
      | None => inl KeyError
      | Some value =>
          match func m, best_value m with
          | Some f, Some best =>
              let best_loss := py_select f best value in
              if negb (best_loss =? best)%float
              then inr (mk_Memory epoch (opt_direction m) (func m)
                          (Some value) (patience m)
                          (early_stopping_objective m), true)
              else inr (m, false)
          | _, _ => inl AttributeError
          end
      end
  end.

(** [Memory.early_stopping]. *)
Definition early_stopping_reached (m : Memory) (epoch : Z) : bool :=
  match patience m with
  | None => false
  | Some p => p <? epoch - best_epoch m
  end.

(** The exceptions that reach [Trainer.train]: those raised by the
    training step and by [Trainer.test], and those raised by the memory. *)
Inductive train_exn : Type :=
| FromEpoch (e : exn)
| FromMemory (e : py_exn).

Definition trained (A : Type) : Type := (train_exn + A)%type.

(** [Trainer._training_epoch] for a loader of [train_batches] batches, as
    far as control goes.  The forward pass, the loss and the optimizer are
    external and return; the loss they add up is a tensor whose value only
    reaches the log, so the unit stands for it.  What remains is the final
    [epoch_loss / len(train_data)]: for a loader without batches
    [epoch_loss] is still the Python float [0.] and the division raises. *)
Definition _training_epoch (train_batches : nat) : result unit :=
  if (train_batches =? 0)%nat then Raise ZeroDivisionError else Return tt.

(** The development data seen from [Trainer.train]: the number of batches
    of the loader and, for the model as it is after each epoch, what
    [self.metrics.compute()] returns and the value of
    [test_loss / len(test_data)] (both computed outside). *)
Record dev_run : Type := mk_dev_run {
  dev_batches : nat;
  metric_results : Z -> gmap string float;
  test_loss : Z -> float
}.

(** [Trainer.test] after the training step of [epoch]: the division in
    the log line raises for a loader without batches (there [test_loss] is
    still the Python float [0.]); otherwise the metric results are
    returned with the entry 'Test_loss' added. *)
Definition test (dev_data : dev_run) (epoch : Z)
  : result (gmap string float) :=
  if (dev_batches dev_data =? 0)%nat then Raise ZeroDivisionError
  else Return (<["Test_loss" := test_loss dev_data epoch]>
                 (metric_results dev_data epoch)).

(** [Trainer._eval].  [dev_data] is [None] when the argument of that name
    is.  The result is the new memory, whether [save_model] was called,
    and the returned flag. *)
Definition _eval (m : Memory) (epoch : Z) (dev_data : option dev_run)
  : trained (Memory * bool * bool) :=
  match dev_data with
  | None => inr (m, false, false)
  | Some dev =>
      match test dev epoch with
      | Raise e => inl (FromEpoch e)
      | Return values_dict =>
          match update m epoch values_dict with
          | inl e => inl (FromMemory e)
          | inr (m', improvement) =>
              inr (m', improvement, early_stopping_reached m' epoch)
          end
      end
  end.

(** What a run of [Trainer.train] leaves behind: the memory, the epochs
    after which the model was saved (in order) and the number of epochs
    trained. *)
Record train_state : Type := mk_train_state {
  memory : Memory;
  saved_epochs : list Z;
  epochs_trained : nat
}.

(** The loop of [Trainer.train] over the remaining epochs: the training
    step, then the evaluation, then the break on early stopping. *)
Fixpoint train_epochs (train_batches : nat) (dev_data : option dev_run)
  (remaining : list Z) (st : train_state) : trained train_state :=
  match remaining with
  | [] => inr st
  | epoch :: remaining' =>
      match _training_epoch train_batches with
      | Raise e => inl (FromEpoch e)
      | Return _ =>
          match _eval (memory st) epoch dev_data with
          | inl e => inl e
          | inr (m', saved, early_stopping) =>
              let st' :=
                mk_train_state m'
                  (if saved then saved_epochs st ++ [epoch]
                   else saved_epochs st)
                  (S (epochs_trained st)) in
              if early_stopping then inr st'
              else train_epochs train_batches dev_data remaining' st'
          end
      end
  end.

(** [range(n)]. *)
Definition py_range (n : Z) : list Z := map Z.of_nat (seq 0 (Z.to_nat n)).

(** [Trainer.train] for a trainer whose memory is [m] and a training
    loader of [train_batches] batches, once the result directory has been
    created. *)
Definition train (config : Config) (m : Memory) (train_batches : nat)
  (dev_data : option dev_run) : trained train_state :=
  train_epochs train_batches dev_data (py_range (epochs config))
    (mk_train_state m [] 0).

(** A float that is not NaN. *)
Definition not_nan (x : float) : Prop := (x =? x)%float = true.

(** No character of [s] is an upper-case letter. *)
Fixpoint no_upper (s : string) : bool :=
  match s with
  | EmptyString => true
  | String c s' => negb (ascii_is_upper c) && no_upper s'
  end.

(** A memory that tracks a maximum, as [Trainer] creates it, with
    patience 1 and the precision as objective. *)
Definition example_config : Config := {|
  early_stopping := Some 1;
  early_stopping_objective_cfg := Some "precision";
  epochs := 6
|}.

Definition example_memory : Memory := {|
  best_epoch := 0;
  opt_direction := "max";
  func := Some py_max;
  best_value := Some neg_infinity;
  patience := Some 1;
  early_stopping_objective := Some "Precision"
|}.

(** The precision measured after each epoch: it rises to 0.75 in epoch 1
    and never again. *)
Definition example_test (epoch : Z) : gmap string float :=
  {[ "Precision" := if epoch =? 0 then 0.5%float
                    else if epoch =? 1 then 0.75%float
                    else 0.625%float;
     "Test_loss" := 0.25%float ]}.

(** Development data of two batches with these measurements. *)
Definition example_dev : dev_run := {|
  dev_batches := 2;
  metric_results := example_test;
  test_loss := fun _ => 0.25%float
|}.

(** A configuration without early stopping. *)
Definition example_config_no_stopping : Config := {|
  early_stopping := None;
  early_stopping_objective_cfg := Some "precision";
  epochs := 3
|}.

(** Every character of [s] is an ASCII character. *)
Fixpoint ascii_only (s : string) : bool :=
  match s with
  | EmptyString => true
  | String c s' => (Ascii.nat_of_ascii c <? 128)%nat && ascii_only s'
  end.

(** The characters of [s] after the first one. *)
Definition str_tail (s : string) : string :=
  match s with
  | EmptyString => EmptyString
  | String _ s' => s'
  end.

(** [value] is strictly better than [best] for the selector [f]. *)
Definition strictly_better (f : selector) (best value : float) : bool :=
  match f with
  | py_min => (value <? best)%float
  | py_max => (best <? value)%float
  end.

(** [b'] is at least as good as [b] for the selector [f]. *)
Definition at_least_as_good (f : selector) (b b' : float) : bool :=
  match f with
  | py_min => (b' <=? b)%float
  | py_max => (b <=? b')%float
  end.

(** ** The result directory of [Trainer.train] *)

Section SavePath.

(** Characters of a path, with the one-character separator [os.sep]. *)
Context {char : Type} `{EqDecision char}.
Variable sep : char.

(** [s.rfind(sep)]: the highest index at which [sep] occurs in [s], or
    -1 when it does not occur. *)
Fixpoint rfind (s : list char) : Z :=
  match s with
  | [] => -1
  | c :: s' =>
      let r := rfind s' in
      if r <? 0 then (if decide (c = sep) then 0 else -1) else r + 1
  end.

(** [s[:i]]: a negative [i] counts from the end. *)
Definition slice_to (s : list char) (i : Z) : list char :=
  if i <? 0 then take (Z.to_nat (Z.of_nat (length s) + i)) s
  else take (Z.to_nat i) s.

(** [self.save_path[:self.save_path.rfind(os.sep)]], the directory
    [Trainer.train] creates. *)
Definition save_dir (save_path : list char) : list char :=
  slice_to save_path (rfind save_path).

End SavePath.

(** ** ModelLoss *)

Section Outputs.

(** The values of [chunker_loss] (tensors, or the default [0.]) and their
    addition are external. *)
Variable tensor : Type.
Variable tensor_add : tensor -> tensor -> tensor.

Record ModelLoss : Type := mk_ModelLoss {
  chunker_loss : tensor
}.

(** The operands met by a [ModelLoss]: another [ModelLoss], or an object
    without attribute [chunker_loss], such as the integer [sum] starts
    from. *)
Inductive operand : Type :=
| Loss (l : ModelLoss)
| Number (z : Z).

(** [ModelLoss.__add__] and [ModelLoss.__radd__]: both read
    [other.chunker_loss]. *)
Definition ModelLoss_add (self : ModelLoss) (other : operand)
  : outcome ModelLoss :=
  match other with
  | Loss o => inr (mk_ModelLoss (tensor_add (chunker_loss self) (chunker_loss o)))
  | Number _ => inl AttributeError
  end.

Definition ModelLoss_radd (self : ModelLoss) (other : operand)
  : outcome ModelLoss :=
  ModelLoss_add self other.

(** [a + b]: [ModelLoss.__add__] when [a] is a [ModelLoss]; for an integer
    [a], [int.__add__] declines a [ModelLoss] and Python calls
    [b.__radd__(a)]. *)
Definition py_add (a b : operand) : outcome operand :=
  match a, b with
  | Loss l, _ =>
      match ModelLoss_add l b with inl e => inl e | inr r => inr (Loss r) end
  | Number _, Loss l =>
      match ModelLoss_radd l a with inl e => inl e | inr r => inr (Loss r) end
  | Number x, Number y => inr (Number (x + y))
  end.

(** [sum(items, start)]. *)
Fixpoint py_sum (items : list operand) (start : operand) : outcome operand :=
  match items with
  | [] => inr start
  | x :: items' =>
      match py_add start x with
      | inl e => inl e
      | inr acc => py_sum items' acc
      end
  end.

End Outputs.

(** ** What [construct_spans_ranges] returns for a sample *)

(** [ps] lists, in increasing order, exactly the positions at which the
    mask [m] is true. *)
Definition true_positions (m : list Z) (ps : list Z) : Prop :=
  StronglySorted Z.lt ps /\
  forall i : Z,
    In i ps <->
    exists (k : nat) (c : Z),
      i = Z.of_nat k /\ m !! k = Some c /\ truthy c = true.

(** [spans] holds, in order, the pair (b_j, b_{j+1} - 1) for every two
    adjacent elements of the boundary sequence [b], and nothing else. *)
Definition pairs_over (b : list Z) (spans : list span) : Prop :=
  length spans = Nat.pred (length b) /\
  forall (j : nat) (x y : Z),
    b !! j = Some x -> b !! S j = Some y -> spans !! j = Some (x, y - 1).

(** [spans] are the pairs over [0, p_1 .. p_k, L - 1, L], where
    p_1 < .. < p_k are the true positions of the mask of [s] and L is its
    encoded sentence length: k + 2 pairs, none left out. *)
Definition ranges_returned (s : Sample) (spans : list span) : Prop :=
  exists ps : list Z,
    true_positions (words_mask s) ps /\
    length ps = count_true (words_mask s) /\
    pairs_over ([0] ++ ps
                ++ [Z.of_nat (encoded_sentence_length s) - 1;
                    Z.of_nat (encoded_sentence_length s)]) spans /\
    length spans = (count_true (words_mask s) + 2)%nat.

(** ** Lemmas on the monad and the array helpers *)

Lemma bind_Return {A B : Type} (m : result A) (f : A -> result B) (b : B) :
  (m ≫= f) = Return b -> exists a, m = Return a /\ f a = Return b.
Proof.
  destruct m as [e | a]; cbn; intros H.
  - discriminate H.
  - exists a. split; [reflexivity | exact H].
Qed.

Lemma nonzero_from_bounds (l : list Z) (i : Z) :
  Forall (fun j => i <= j < i + Z.of_nat (length l)) (nonzero_from i l).
Proof.
  revert i. induction l as [| x l IH]; intros i; cbn [nonzero_from].
  - constructor.
  - assert (Hrest : Forall (fun j => i <= j < i + Z.of_nat (length (x :: l)))
                           (nonzero_from (i + 1) l)).
    { eapply Forall_impl; [apply (IH (i + 1)) |].
      cbn beta. intros j Hj. cbn [length]. lia. }
    destruct (truthy x); [constructor |]; try exact Hrest.
    cbn [length]. lia.
Qed.

Lemma nonzero_from_sorted (l : list Z) (i : Z) :
  StronglySorted Z.lt (nonzero_from i l).
Proof.
  revert i. induction l as [| x l IH]; intros i; cbn [nonzero_from].
  - constructor.
  - destruct (truthy x); [| apply IH].
    constructor; [apply IH |].
    eapply Forall_impl; [apply (nonzero_from_bounds l (i + 1)) |].
    cbn beta. intros j Hj. lia.
Qed.

Lemma nonzero_from_length (l : list Z) (i : Z) :
  length (nonzero_from i l) = count_true l.
Proof.
  unfold count_true. revert i.
  induction l as [| x l IH]; intros i; cbn [nonzero_from List.filter].
  - reflexivity.
  - destruct (truthy x); cbn [length]; rewrite IH; reflexivity.
Qed.

Lemma delete_degenerate_valid (spans : list span) :
  Forall span_valid (delete_degenerate spans).
Proof.
  unfold delete_degenerate.
  induction spans as [| s spans IH]; cbn [List.filter].
  - constructor.
  - destruct (fst s >? snd s) eqn:E; cbn [negb]; [exact IH |].
    constructor; [| exact IH].
    unfold span_valid. lia.
Qed.

Lemma windows2_length (l : list Z) : length (windows2 l) = Nat.pred (length l).
Proof.
  induction l as [| a [| b t] IH]; try reflexivity.
  change (windows2 (a :: b :: t)) with ((a, b) :: windows2 (b :: t)).
  cbn [length] in *. rewrite IH. reflexivity.
Qed.

(** Decoding the windows of a strictly increasing index list closed by a
    right sentinel: the spans that survive lie one before the other and
    none starts before [lo]. *)
Lemma decode_increasing (idx : list Z) (e lo : Z) :
  StronglySorted Z.lt idx ->
  Forall (fun j => lo <= j) idx ->
  let out := delete_degenerate (map dec_end (windows2 (idx ++ [e]))) in
  non_overlapping out /\ Forall (fun s => lo <= fst s) out.
Proof.
  unfold non_overlapping.
  revert lo. induction idx as [| i idx IH]; intros lo Hs Hlo.
  - cbn. split; constructor.
  - apply StronglySorted_inv in Hs. destruct Hs as [Hs Hi].
    apply Forall_cons_1 in Hlo. destruct Hlo as [Hloi Hlo].
    destruct idx as [| j idx].
    + cbn. destruct (i >? e - 1); cbn; split; repeat constructor; cbn; lia.
    + change (windows2 ((i :: j :: idx) ++ [e]))
        with ((i, j) :: windows2 ((j :: idx) ++ [e])).
      assert (Hij : i < j) by (apply Forall_cons_1 in Hi; tauto).
      destruct (IH j Hs) as [IH1 IH2].
      { constructor; [lia |].
        apply StronglySorted_inv in Hs. destruct Hs as [_ Hj].
        eapply Forall_impl; [exact Hj |]. cbn beta. intros; lia. }
      cbn [map delete_degenerate List.filter dec_end fst snd].
      replace (i >? j - 1) with false by (rewrite Z.gtb_ltb; symmetry; apply Z.ltb_ge; lia).
      cbn [negb]. split.
      * constructor; [exact IH1 |].
        eapply Forall_impl; [exact IH2 |].
        unfold precedes. cbn. intros; lia.
      * constructor; [cbn; lia |].
        eapply Forall_impl; [exact IH2 |]. cbn beta. intros; lia.
Qed.

(** The same with the left sentinel in front. *)
Lemma decode_boundaries (idx : list Z) (o e : Z) :
  StronglySorted Z.lt idx ->
  non_overlapping
    (delete_degenerate (map dec_end (windows2 (np_pad1 idx o e)))).
Proof.
  intros Hs. unfold np_pad1.
  destruct idx as [| i idx].
  - cbn. destruct (o >? e - 1); cbn; repeat constructor.
  - change (windows2 ([o] ++ (i :: idx) ++ [e]))
      with ((o, i) :: windows2 ((i :: idx) ++ [e])).
    destruct (decode_increasing (i :: idx) e i Hs) as [H1 H2].
    { constructor; [lia |].
      apply StronglySorted_inv in Hs. destruct Hs as [_ Hi].
      eapply Forall_impl; [exact Hi |]. cbn beta. intros; lia. }
    cbn [map delete_degenerate List.filter dec_end fst snd].
    destruct (o >? i - 1); cbn [negb]; [exact H1 |].
    constructor; [exact H1 |].
    eapply Forall_impl; [exact H2 |].
    unfold precedes. cbn. intros; lia.
Qed.

(** Valid spans that do not overlap are ordered by their starts. *)
Lemma non_overlapping_ordered (l : list span) :
  Forall span_valid l -> non_overlapping l -> ordered_by_start l.
Proof.
  unfold non_overlapping, ordered_by_start.
  induction l as [| s l IH]; intros Hv Hn.
  - constructor.
  - apply Forall_cons_1 in Hv. destruct Hv as [Hs Hv].
    apply StronglySorted_inv in Hn. destruct Hn as [Hn Hsl].
    constructor; [apply IH; assumption |].
    eapply Forall_impl; [exact Hsl |].
    unfold precedes, span_valid in *. intros t Ht. lia.
Qed.

Lemma nonzero_from_In (l : list Z) (s i : Z) :
  In i (nonzero_from s l) <->
  exists (k : nat) (x : Z), i = s + Z.of_nat k /\ l !! k = Some x /\ truthy x = true.
Proof.
  revert s. induction l as [| y l IH]; intros s; cbn [nonzero_from].
  - split; [intros [] | intros (k & x & _ & H & _); destruct k; discriminate H].
  - assert (Htail : In i (nonzero_from (s + 1) l) <->
                    exists (k : nat) (x : Z),
                      i = s + Z.of_nat (S k) /\ l !! k = Some x /\ truthy x = true).
    { rewrite IH. split; intros (k & x & Hi & Hx); exists k, x; (split; [lia | exact Hx]). }
    destruct (truthy y) eqn:Ey.
    + cbn [In]. rewrite Htail. split.
      * intros [<- | (k & x & Hi & Hx)].
        -- exists 0%nat, y. cbn. repeat split; [lia | exact Ey].
        -- exists (S k), x. split; [exact Hi | exact Hx].
      * intros ([| k] & x & Hi & Hx & Ht).
        -- left. lia.
        -- right. exists k, x. repeat split; assumption.
    + rewrite Htail. split.
      * intros (k & x & Hi & Hx). exists (S k), x. split; [exact Hi | exact Hx].
      * intros ([| k] & x & Hi & Hx & Ht).
        -- cbn in Hx. injection Hx as ->. congruence.
        -- exists k, x. repeat split; assumption.
Qed.

Lemma forM_Return {A B : Type} (f : A -> result B) (l : list A) (out : list B) :
  forM f l = Return out -> Forall2 (fun x y => f x = Return y) l out.
Proof.
  revert out. induction l as [| x l IH]; intros out H; cbn [forM] in H.
  - injection H as <-. constructor.
  - apply bind_Return in H. destruct H as (y & Hy & H).
    apply bind_Return in H. destruct H as (ys & Hys & H).
    injection H as <-. constructor; [exact Hy | apply IH; exact Hys].
Qed.

(** What [construct_spans_ranges] returns for one sample, when it returns:
    one pair per window over [0, p_1 .. p_k, L - 1, L], nothing deleted. *)
Lemma construct_spans_ranges_sample_Return (sample : Sample) (spans : list span) :
  construct_spans_ranges_sample sample = Return spans ->
  spans = map dec_end
            (windows2 ([0] ++ nonzero (words_mask sample)
                       ++ [Z.of_nat (encoded_sentence_length sample) - 1;
                           Z.of_nat (encoded_sentence_length sample)])).
Proof.
  unfold construct_spans_ranges_sample.
  destruct (nonzero (words_mask sample)) as [| p [| q idx]]; cbn; intros H;
    try discriminate H; injection H as <-; try reflexivity.
  rewrite <- !app_assoc. reflexivity.
Qed.

Section TrainerFacts.

Variable predict : list Z -> list Z -> ndarray2.

Lemma masked_predictions_length (sample : Sample) :
  well_shaped predict sample ->
  length (masked_predictions predict sample) = encoded_sentence_length sample.
Proof.
  intros (_ & HT & HM). unfold masked_predictions, binarize.
  rewrite length_zip_with, !length_take, !length_map. lia.
Qed.

Lemma _predicted_boundaries_Return (sample : Sample) (b : list Z) :
  _predicted_boundaries predict sample = Return b ->
  exists preds : list Z,
    b = np_pad1 (nonzero preds) (offset sample)
          (Z.of_nat (length preds) - offset sample).
Proof.
  unfold _predicted_boundaries. intros H.
  apply bind_Return in H. destruct H as (col & _ & H).
  apply bind_Return in H. destruct H as (preds & _ & H).
  injection H as <-. exists preds. reflexivity.
Qed.

Lemma _predicted_boundaries_well_shaped (sample : Sample) :
  well_shaped predict sample ->
  _predicted_boundaries predict sample =
    Return (np_pad1 (nonzero (masked_predictions predict sample)) (offset sample)
              (Z.of_nat (encoded_sentence_length sample) - offset sample)).
Proof.
  intros Hw. pose proof (masked_predictions_length sample Hw) as Hlen.
  destruct Hw as (HC & HT & HM).
  unfold _predicted_boundaries, column1.
  replace (shape1 (predict (sentence sample) (mask sample)) <? 2)%nat with false
    by (symmetry; apply Nat.ltb_ge; exact HC).
  cbn [mbind result_bind]. unfold np_where.
  replace (length (take (encoded_sentence_length sample) (sub_words_mask sample))
           =? length (take (encoded_sentence_length sample)
                        (binarize (map (fun r => nth 1 r 0%float)
                           (rows (predict (sentence sample) (mask sample)))))))%nat
    with true.
  - cbn [mbind result_bind]. fold (masked_predictions predict sample).
    rewrite Hlen. reflexivity.
  - symmetry. apply Nat.eqb_eq. unfold binarize.
    rewrite !length_take, !length_map. lia.
Qed.

Lemma _get_predicted_spans_Return (sample : Sample) (spans : list span) :
  _get_predicted_spans predict sample = Return spans ->
  exists b, _predicted_boundaries predict sample = Return b /\
            spans = delete_degenerate (map dec_end (windows2 b)).
Proof.
  unfold _get_predicted_spans. intros H.
  apply bind_Return in H. destruct H as (b & Hb & H).
  injection H as <-. exists b. split; [exact Hb | reflexivity].
Qed.

Lemma _get_predicted_spans_well_shaped (sample : Sample) :
  well_shaped predict sample ->
  exists spans, _get_predicted_spans predict sample = Return spans.
Proof.
  intros Hw. unfold _get_predicted_spans.
  rewrite (_predicted_boundaries_well_shaped sample Hw).
  cbn [mbind result_bind]. eexists. reflexivity.
Qed.

End TrainerFacts.

Lemma windows2_lookup (b : list Z) (j : nat) (x y : Z) :
  b !! j = Some x -> b !! S j = Some y -> windows2 b !! j = Some (x, y).
Proof.
  revert j. induction b as [| u [| v t] IH]; intros j Hx Hy.
  - discriminate Hx.
  - destruct j; discriminate Hy.
  - change (windows2 (u :: v :: t)) with ((u, v) :: windows2 (v :: t)).
    destruct j as [| j].
    + cbn in Hx, Hy. injection Hx as <-. injection Hy as <-. reflexivity.
    + cbn [lookup list_lookup] in *. apply IH; assumption.
Qed.

Lemma nonzero_true_positions (m : list Z) : true_positions m (nonzero m).
Proof.
  split; [apply nonzero_from_sorted |].
  intros i. unfold nonzero. rewrite nonzero_from_In.
  split; intros (k & c & Hi & Hk); exists k, c; (split; [lia | exact Hk]).
Qed.

Lemma construct_spans_ranges_sample_not_one (sample : Sample) :
  count_true (words_mask sample) <> 1%nat ->
  exists spans, construct_spans_ranges_sample sample = Return spans.
Proof.
  intros H. rewrite <- (nonzero_from_length (words_mask sample) 0) in H.
  fold (nonzero (words_mask sample)) in H.
  unfold construct_spans_ranges_sample.
  destruct (nonzero (words_mask sample)) as [| p [| q idx]];
    [| cbn in H; congruence |]; cbn; eexists; reflexivity.
Qed.

(** C1 (as amended). Every span returned by [Trainer._get_predicted_spans]
    satisfies start <= end: degenerate windows are deleted.
    [TransformerWithAggregation.construct_spans_ranges] deletes nothing: it
    returns for every batch in which no mask has exactly one true entry,
    and whenever it returns, it returns for each sample, in order, exactly
    the pairs (b_j, b_{j+1} - 1) over the boundary sequence
    [0, p_1 .. p_k, L - 1, L] of the true positions of its mask, that is
    k + 2 pairs for a mask with k true entries. *)
Theorem C1_predicted_spans_valid_ranges_unfiltered
  (predict : list Z -> list Z -> ndarray2) (sample : Sample) :
  (forall spans, _get_predicted_spans predict sample = Return spans ->
                 Forall span_valid spans) /\
  (forall batch,
     Forall (fun s => count_true (words_mask s) <> 1%nat) batch ->
     exists out, construct_spans_ranges batch = Return out) /\
  (forall batch out, construct_spans_ranges batch = Return out ->
     Forall2 ranges_returned batch out).
Proof.
  split; [| split].
  - intros spans H.
    apply _get_predicted_spans_Return in H. destruct H as (b & _ & ->).
    apply delete_degenerate_valid.
  - unfold construct_spans_ranges.
    induction 1 as [| s batch Hs _ (out & IH)].
    + exists []. reflexivity.
    + destruct (construct_spans_ranges_sample_not_one s Hs) as (spans & Hspans).
      exists (spans :: out). cbn [forM]. rewrite Hspans, IH. reflexivity.
  - intros batch out H. apply forM_Return in H.
    eapply Forall2_impl; [exact H |]. cbn beta. intros s spans Hs.
    apply construct_spans_ranges_sample_Return in Hs. subst spans.
    assert (Hlen : length (nonzero (words_mask s)) = count_true (words_mask s))
      by apply nonzero_from_length.
    exists (nonzero (words_mask s)).
    split; [apply nonzero_true_positions |]. split; [exact Hlen |].
    split; [split |].
    + rewrite length_map, windows2_length. reflexivity.
    + intros j x y Hx Hy.
      rewrite list_lookup_fmap, (windows2_lookup _ j x y Hx Hy). reflexivity.
    + rewrite length_map, windows2_length, !length_app, Hlen.
      cbn [length]. lia.
Qed.

Lemma C1_witness :
  Forall span_valid [(0, 2); (3, 4); (5, 5)] /\
  (exists out, construct_spans_ranges [example_sample] = Return out) /\
  Forall2 ranges_returned
    [example_sample] [[(0, -1); (0, 2); (3, 4); (5, 4); (5, 5)]].
Proof.
  destruct (C1_predicted_spans_valid_ranges_unfiltered
              example_predict example_sample) as (Hvalid & Hret & Hpairs).
  split; [| split].
  - apply Hvalid. vm_compute. reflexivity.
  - apply Hret. repeat constructor. vm_compute. lia.
  - apply Hpairs. vm_compute. reflexivity.
Defined.

(** C1, as stated, fails: for a mask that is true at position 0,
    [construct_spans_ranges] returns the pair (0, -1), whose start exceeds
    its end. *)
Lemma C1_counterexample :
  construct_spans_ranges [example_sample]
    = Return [[(0, -1); (0, 2); (3, 4); (5, 4); (5, 5)]] /\
  ~ Forall span_valid [(0, -1); (0, 2); (3, 4); (5, 4); (5, 5)].
Proof.
  split; [vm_compute; reflexivity |].
  intros H. apply Forall_cons_1 in H. destruct H as [H _].
  unfold span_valid in H. cbn in H. lia.
Qed.




(** C3 (as amended). For a sample whose score array and mask cover its
    content length N, the boundary sequence that
    [Trainer._get_predicted_spans] hands to the sliding window starts with
    the offset o and ends with N - o (the length of the truncated
    prediction array minus the offset, which is N only for o = 0); in
    between are, in increasing order, exactly the positions below N where
    the mask is true and the split score is at least 0.5. *)
Theorem C3_boundary_sentinels
  (predict : list Z -> list Z -> ndarray2) (sample : Sample) :
  well_shaped predict sample ->
  exists mid : list Z,
    _predicted_boundaries predict sample
      = Return ([offset sample] ++ mid
                ++ [Z.of_nat (encoded_sentence_length sample) - offset sample]) /\
    StronglySorted Z.lt mid /\
    forall i : Z,
      In i mid <->
      exists (k : nat) (c : Z) (r : list float),
        i = Z.of_nat k /\
        (k < encoded_sentence_length sample)%nat /\
        sub_words_mask sample !! k = Some c /\ truthy c = true /\
        rows (predict (sentence sample) (mask sample)) !! k = Some r /\
        (0.5 <=? nth 1 r 0)%float = true.
Proof.
  intros Hw. exists (nonzero (masked_predictions predict sample)).
  split; [apply (_predicted_boundaries_well_shaped predict sample Hw) |].
  split; [apply nonzero_from_sorted |].
  intros i. unfold nonzero. rewrite nonzero_from_In.
  unfold masked_predictions, binarize, int_ChunkCode_NOT_SPLIT.
  split.
  - intros (k & x & -> & Hk & Hx).
    apply lookup_zip_with_Some in Hk. destruct Hk as (c & v & -> & Hc & Hv).
    apply lookup_take_Some in Hc. destruct Hc as [Hc Hlt].
    apply lookup_take_Some in Hv. destruct Hv as [Hv _].
    rewrite !list_lookup_fmap in Hv.
    destruct (rows (predict (sentence sample) (mask sample)) !! k) as [r |] eqn:Hr;
      [| discriminate Hv].
    cbn in Hv. injection Hv as <-.
    exists k, c, r.
    destruct (truthy c); [| discriminate Hx].
    destruct (0.5 <=? nth 1 r 0)%float; [| discriminate Hx].
    repeat split; try assumption; lia.
  - intros (k & c & r & -> & Hlt & Hc & Ht & Hr & Hs).
    exists k, 1. split; [lia |]. split; [| reflexivity].
    apply lookup_zip_with_Some.
    exists c, 1. rewrite Ht. split; [reflexivity |].
    split; apply lookup_take_Some; (split; [| exact Hlt]); [exact Hc |].
    rewrite !list_lookup_fmap, Hr. cbn. rewrite Hs. reflexivity.
Qed.

Lemma C3_witness :
  exists mid : list Z,
    _predicted_boundaries example_predict example_sample_offset1
      = Return ([1] ++ mid ++ [5]) /\
    StronglySorted Z.lt mid /\
    forall i : Z,
      In i mid <->
      exists (k : nat) (c : Z) (r : list float),
        i = Z.of_nat k /\ (k < 6)%nat /\
        sub_words_mask example_sample_offset1 !! k = Some c /\
        truthy c = true /\
        rows example_scores !! k = Some r /\
        (0.5 <=? nth 1 r 0)%float = true.
Proof.
  apply (C3_boundary_sentinels example_predict example_sample_offset1).
  vm_compute. repeat split; lia.
Defined.

(** C3, as stated, fails: with content length 6 and offset 1 the last
    element of the boundary sequence is 5, not the content length. *)
Lemma C3_counterexample :
  encoded_sentence_length example_sample_offset1 = 6%nat /\
  _predicted_boundaries example_predict example_sample_offset1
    = Return [1; 0; 3; 5; 5] /\
  last [1; 0; 3; 5; 5] = Some 5 /\
  5 <> Z.of_nat (encoded_sentence_length example_sample_offset1).
Proof.
  split; [reflexivity |]. split; [vm_compute; reflexivity |].
  split; [reflexivity |]. cbn. lia.
Qed.

(** C4. For content length N >= 1 and an offset in [0, N), the sequence
    returned by [Trainer._get_predicted_spans] is ordered by start, its
    spans are pairwise non-overlapping, and every span satisfies
    start <= end; and the call does return whenever the score array and the
    mask cover the sentence. *)
Theorem C4_predicted_spans_ordered_disjoint
  (predict : list Z -> list Z -> ndarray2) (sample : Sample) :
  (1 <= encoded_sentence_length sample)%nat ->
  0 <= offset sample < Z.of_nat (encoded_sentence_length sample) ->
  (forall spans, _get_predicted_spans predict sample = Return spans ->
     ordered_by_start spans /\ non_overlapping spans /\
     Forall span_valid spans) /\
  (well_shaped predict sample ->
     exists spans, _get_predicted_spans predict sample = Return spans).
Proof.
  intros _ _. split; [| apply _get_predicted_spans_well_shaped].
  intros spans H.
  apply _get_predicted_spans_Return in H. destruct H as (b & Hb & ->).
  apply _predicted_boundaries_Return in Hb. destruct Hb as (preds & ->).
  assert (Hv : Forall span_valid
                 (delete_degenerate
                    (map dec_end
                       (windows2 (np_pad1 (nonzero preds) (offset sample)
                          (Z.of_nat (length preds) - offset sample))))))
    by apply delete_degenerate_valid.
  assert (Hn : non_overlapping
                 (delete_degenerate
                    (map dec_end
                       (windows2 (np_pad1 (nonzero preds) (offset sample)
                          (Z.of_nat (length preds) - offset sample))))))
    by (apply decode_boundaries, nonzero_from_sorted).
  split; [apply non_overlapping_ordered; assumption |].
  split; assumption.
Qed.

Lemma C4_witness :
  (ordered_by_start [(0, 2); (3, 4)] /\ non_overlapping [(0, 2); (3, 4)] /\
   Forall span_valid [(0, 2); (3, 4)]) /\
  (exists spans,
     _get_predicted_spans example_predict example_sample_offset1
       = Return spans).
Proof.
  assert (H1 : (1 <= encoded_sentence_length example_sample_offset1)%nat)
    by (cbn; lia).
  assert (H2 : 0 <= offset example_sample_offset1
               < Z.of_nat (encoded_sentence_length example_sample_offset1))
    by (cbn; lia).
  destruct (C4_predicted_spans_ordered_disjoint
              example_predict example_sample_offset1 H1 H2) as [Ha Hb].
  split.
  - apply Ha. vm_compute. reflexivity.
  - apply Hb. vm_compute. repeat split; lia.
Defined.

Lemma np_where_same_length (cond x : list Z) (y : Z) :
  length cond = length x ->
  np_where cond x y
  = Return (zip_with (fun c v => if truthy c then v else y) cond x).
Proof.
  intros H. unfold np_where.
  rewrite (proj2 (Nat.eqb_eq _ _) H). reflexivity.
Qed.

(** Scores at positions where the mask is false do not reach the masked
    prediction array. *)
Lemma np_where_masked (m : list Z) (n : nat) (r1 r2 : list (list float)) :
  length r1 = length m ->
  length r2 = length m ->
  (forall (k : nat) (c : Z),
     m !! k = Some c -> truthy c = true -> r1 !! k = r2 !! k) ->
  np_where (take n m)
    (take n (binarize (map (fun r => nth 1 r 0%float) r1)))
    int_ChunkCode_NOT_SPLIT
  = np_where (take n m)
      (take n (binarize (map (fun r => nth 1 r 0%float) r2)))
      int_ChunkCode_NOT_SPLIT.
Proof.
  intros H1 H2 Hagree.
  rewrite !np_where_same_length
    by (unfold binarize; rewrite !length_take, !length_map; lia).
  unfold binarize.
  f_equal. apply list_eq. intros k.
  rewrite !lookup_zip_with.
  destruct (take n m !! k) as [c |] eqn:Hc; [| reflexivity].
  apply lookup_take_Some in Hc. destruct Hc as [Hc Hlt].
  rewrite !(lookup_take_lt _ n k Hlt), !list_lookup_fmap.
  destruct (truthy c) eqn:Ht.
  - rewrite (Hagree k c Hc Ht). reflexivity.
  - assert (Hk : (k < length m)%nat) by (apply lookup_lt_is_Some; eauto).
    destruct (lookup_lt_is_Some_2 r1 k) as [x1 ->]; [lia |].
    destruct (lookup_lt_is_Some_2 r2 k) as [x2 ->]; [lia |].
    cbn. rewrite Ht. reflexivity.
Qed.

(** Every index the masked prediction array marks is a position where
    the mask is true. *)
Lemma nonzero_masked_positions (m x : list Z) (i : Z) :
  In i (nonzero (zip_with (fun c v => if truthy c then v
                                      else int_ChunkCode_NOT_SPLIT) m x)) ->
  exists (k : nat) (c : Z),
    i = Z.of_nat k /\ m !! k = Some c /\ truthy c = true.
Proof.
  unfold nonzero. rewrite nonzero_from_In.
  intros (k & y & -> & Hk & Hy).
  apply lookup_zip_with_Some in Hk. destruct Hk as (c & v & -> & Hc & _).
  exists k, c. split; [lia |]. split; [exact Hc |].
  destruct (truthy c); [reflexivity | discriminate Hy].
Qed.

(** C5. Two class-score arrays of the shape of the mask that have the
    same rows wherever the sub-word mask is true give the same result of
    [Trainer._get_predicted_spans], whatever their rows are where the mask
    is false; and every boundary between the two sentinels is a position
    where the mask is true. *)
Theorem C5_masked_positions_irrelevant
  (predict1 predict2 : list Z -> list Z -> ndarray2) (sample : Sample) :
  shape1 (predict1 (sentence sample) (mask sample))
    = shape1 (predict2 (sentence sample) (mask sample)) ->
  length (rows (predict1 (sentence sample) (mask sample)))
    = length (sub_words_mask sample) ->
  length (rows (predict2 (sentence sample) (mask sample)))
    = length (sub_words_mask sample) ->
  (forall (k : nat) (c : Z),
     sub_words_mask sample !! k = Some c -> truthy c = true ->
     rows (predict1 (sentence sample) (mask sample)) !! k
       = rows (predict2 (sentence sample) (mask sample)) !! k) ->
  _get_predicted_spans predict1 sample = _get_predicted_spans predict2 sample /\
  (forall b, _predicted_boundaries predict1 sample = Return b ->
     exists (mid : list Z) (e : Z),
       b = [offset sample] ++ mid ++ [e] /\
       forall i, In i mid ->
         exists (k : nat) (c : Z),
           i = Z.of_nat k /\ sub_words_mask sample !! k = Some c /\
           truthy c = true).
Proof.
  intros Hshape H1 H2 Hagree. split.
  - unfold _get_predicted_spans, _predicted_boundaries, column1.
    rewrite Hshape.
    destruct (shape1 (predict2 (sentence sample) (mask sample)) <? 2)%nat;
      [reflexivity |].
    cbn [mbind result_bind].
    rewrite (np_where_masked (sub_words_mask sample)
               (encoded_sentence_length sample) _ _ H1 H2 Hagree).
    reflexivity.
  - intros b Hb. unfold _predicted_boundaries in Hb.
    apply bind_Return in Hb. destruct Hb as (col & Hcol & Hb).
    unfold column1 in Hcol.
    destruct (shape1 (predict1 (sentence sample) (mask sample)) <? 2)%nat;
      [discriminate Hcol |].
    injection Hcol as <-.
    rewrite np_where_same_length in Hb
      by (unfold binarize; rewrite !length_take, !length_map; lia).
    cbn [mbind result_bind] in Hb. injection Hb as <-.
    eexists. eexists. split; [reflexivity |].
    intros i Hi. apply nonzero_masked_positions in Hi.
    destruct Hi as (k & c & -> & Hc & Ht).
    apply lookup_take_Some in Hc. destruct Hc as [Hc _].
    exists k, c. repeat split; assumption.
Qed.

Lemma C5_witness :
  _get_predicted_spans example_predict example_sample
  = _get_predicted_spans example_predict_noisy example_sample /\
  (forall b, _predicted_boundaries example_predict example_sample = Return b ->
     exists (mid : list Z) (e : Z),
       b = [0] ++ mid ++ [e] /\
       forall i, In i mid ->
         exists (k : nat) (c : Z),
           i = Z.of_nat k /\ [1; 0; 0; 1; 0; 1] !! k = Some c /\
           truthy c = true).
Proof.
  apply (C5_masked_positions_irrelevant
           example_predict example_predict_noisy example_sample).
  - reflexivity.
  - reflexivity.
  - reflexivity.
  - intros k c Hk Ht.
    do 6 (destruct k as [| k];
          [cbn in Hk; injection Hk as <-;
           first [reflexivity | discriminate Ht] |]).
    discriminate Hk.
Defined.

Lemma exact_match_eq (p t : span) : exact_match p t = true <-> p = t.
Proof.
  unfold exact_match. destruct p as [a b], t as [c d]. cbn.
  rewrite andb_true_iff, !Z.eqb_eq. split.
  - intros [-> ->]. reflexivity.
  - intros H. injection H as -> ->. split; reflexivity.
Qed.

Lemma matches_reference_In (p : span) (reference : list span) :
  existsb (exact_match p) reference = true <-> In p reference.
Proof.
  rewrite existsb_exists. split.
  - intros (t & Ht & Hm). apply exact_match_eq in Hm. subst t. exact Ht.
  - intros H. exists p. split; [exact H | apply exact_match_eq; reflexivity].
Qed.

Lemma _count_intersection_cardinality (reference predicted : list span) :
  _count_intersection reference predicted
  = Z.of_nat (intersection_cardinality predicted reference).
Proof.
  unfold _count_intersection, intersection_cardinality. f_equal.
  rewrite <- (size_list_to_set (C := gset span)).
  - f_equal. apply set_eq. intros x.
    rewrite elem_of_intersection, !elem_of_list_to_set, !list_elem_of_In.
    rewrite filter_In, matches_reference_In, <- !list_elem_of_In.
    rewrite elem_of_remove_dups. reflexivity.
  - apply NoDup_ListNoDup, List.NoDup_filter, NoDup_ListNoDup, NoDup_remove_dups.
Qed.

Lemma size_list_to_set_le (l : list span) :
  (size (list_to_set l : gset span) <= length l)%nat.
Proof.
  induction l as [| x l IH]; cbn [length].
  - rewrite list_to_set_nil, size_empty. lia.
  - rewrite list_to_set_cons, size_union_alt, size_singleton.
    assert (Hsub : (list_to_set l ∖ {[x]} : gset span) ⊆ list_to_set l).
    { apply subseteq_difference_l. reflexivity. }
    apply subseteq_size in Hsub. lia.
Qed.

Lemma _count_intersection_bounds (reference predicted : list span) :
  0 <= _count_intersection reference predicted <= Z.of_nat (length reference).
Proof.
  unfold _count_intersection. split; [lia |].
  apply Nat2Z.inj_le.
  etransitivity; [| apply size_list_to_set_le].
  apply subseteq_size, intersection_subseteq_r.
Qed.

Section CoverageFacts.

Variable predict : list Z -> list Z -> ndarray2.

Lemma coverage_sample_counted (c c' : counters) (sample : Sample) :
  coverage_sample predict c sample = Return c' ->
  counted c c' (Z.of_nat (length (true_spans sample))).
Proof.
  unfold coverage_sample. intros H.
  apply bind_Return in H. destruct H as (spans & _ & H).
  injection H as <-. unfold counted. cbn.
  pose proof (_count_intersection_bounds (true_spans sample) spans).
  lia.
Qed.

Lemma coverage_batch_counted (batch : list Sample) (c c' : counters) :
  foldM (coverage_sample predict) c batch = Return c' ->
  counted c c' (Z.of_nat (length (concat (map true_spans batch)))).
Proof.
  revert c. induction batch as [| s batch IH]; intros c H; cbn [foldM] in H.
  - injection H as <-. unfold counted. cbn. lia.
  - apply bind_Return in H. destruct H as (c1 & H1 & H).
    apply coverage_sample_counted in H1. apply IH in H.
    cbn [map concat]. rewrite length_app, Nat2Z.inj_add.
    unfold counted in *. lia.
Qed.

Lemma coverage_data_counted (data : list (list Sample)) (c c' : counters) :
  foldM (fun c batch => foldM (coverage_sample predict) c batch) c data
    = Return c' ->
  counted c c' (total_reference data).
Proof.
  unfold total_reference.
  revert c. induction data as [| b data IH]; intros c H; cbn [foldM] in H.
  - injection H as <-. unfold counted. cbn. lia.
  - apply bind_Return in H. destruct H as (c1 & H1 & H).
    apply coverage_batch_counted in H1. apply IH in H.
    cbn [concat]. rewrite map_app, concat_app, length_app, Nat2Z.inj_add.
    unfold counted in *. lia.
Qed.

Lemma coverage_sample_returns (c : counters) (sample : Sample) :
  well_shaped predict sample ->
  exists c', coverage_sample predict c sample = Return c'.
Proof.
  intros Hs. unfold coverage_sample.
  destruct (_get_predicted_spans_well_shaped predict sample Hs) as (spans & ->).
  cbn [mbind result_bind]. eexists. reflexivity.
Qed.

Lemma coverage_batch_returns (batch : list Sample) (c : counters) :
  Forall (well_shaped predict) batch ->
  exists c', foldM (coverage_sample predict) c batch = Return c'.
Proof.
  intros Hw. revert c. induction Hw as [| s batch Hs _ IH]; intros c.
  - exists c. reflexivity.
  - cbn [foldM].
    destruct (coverage_sample_returns c s Hs) as (c1 & ->).
    cbn [mbind result_bind]. apply IH.
Qed.

Lemma coverage_data_returns (data : list (list Sample)) (c : counters) :
  Forall (Forall (well_shaped predict)) data ->
  exists c',
    foldM (fun c batch => foldM (coverage_sample predict) c batch) c data
      = Return c'.
Proof.
  intros Hw. revert c. induction Hw as [| b data Hb _ IH]; intros c.
  - exists c. reflexivity.
  - cbn [foldM].
    destruct (coverage_batch_returns b c Hb) as (c1 & ->).
    cbn [mbind result_bind]. apply IH.
Qed.

Lemma coverage_counters_counted (data : list (list Sample)) (c : counters) :
  coverage_counters predict data = Return c ->
  true_num c = total_reference data /\
  0 <= num_predicted c /\
  0 <= num_correct_predicted c <= true_num c.
Proof.
  unfold coverage_counters. intros H.
  apply coverage_data_counted in H. unfold counted in H. cbn in H. lia.
Qed.

End CoverageFacts.

Lemma truediv_unit_interval (a b : Z) :
  0 <= a <= b -> b <> 0 -> (0 <= inject_Z a / inject_Z b <= 1)%Q.
Proof.
  intros Hab Hb.
  destruct b as [| p | p]; [congruence | | lia].
  unfold Qdiv, Qmult, Qinv, inject_Z, Qle. cbn. lia.
Qed.

(** C6. [Trainer._count_intersection] is the number of distinct predicted
    spans equal, in both components, to some reference span; a predicted
    span with no exactly equal reference span contributes nothing.  For
    predicted {(0,2),(3,4)} and reference {(0,2),(3,4),(6,7)} the count is 2
    and [check_coverage_detected_spans], run on that one sample, returns
    the ratio 2/3. *)
Theorem C6_exact_match_intersection :
  (forall reference predicted : list span,
     _count_intersection reference predicted
     = Z.of_nat (intersection_cardinality predicted reference)) /\
  (forall (reference predicted : list span) (p : span),
     ~ In p reference ->
     _count_intersection reference (p :: predicted)
     = _count_intersection reference predicted) /\
  _count_intersection [(0, 2); (3, 4); (6, 7)] [(0, 2); (3, 4)] = 2 /\
  (forall (predict : list Z -> list Z -> ndarray2) (sample : Sample),
     _get_predicted_spans predict sample = Return [(0, 2); (3, 4)] ->
     true_spans sample = [(0, 2); (3, 4); (6, 7)] ->
     check_coverage_detected_spans predict [[sample]]
     = Return {| ratio := 2 # 3; extracted_spans := 2 |}).
Proof.
  split; [exact _count_intersection_cardinality |].
  split; [| split].
  - intros reference predicted p Hp.
    unfold _count_intersection. do 2 f_equal.
    rewrite <- list_elem_of_In in Hp.
    apply set_eq. intros x.
    rewrite !elem_of_intersection, !elem_of_list_to_set, elem_of_cons.
    split; [| tauto].
    intros [[-> | Hx] Hr]; [contradiction | tauto].
  - vm_compute. reflexivity.
  - intros predict sample Hspans Htrue.
    unfold check_coverage_detected_spans, coverage_counters, foldM,
      coverage_sample.
    rewrite Hspans, Htrue. vm_compute. reflexivity.
Qed.

Lemma C6_witness :
  _count_intersection [(0, 2)] [(0, 3); (0, 2)]
    = _count_intersection [(0, 2)] [(0, 2)] /\
  check_coverage_detected_spans example_predict [[example_sample_short]]
    = Return {| ratio := 2 # 3; extracted_spans := 2 |}.
Proof.
  destruct C6_exact_match_intersection as (_ & Hpartial & _ & Hratio).
  split.
  - apply (Hpartial [(0, 2)] [(0, 2)] (0, 3)).
    intros [H | []]. discriminate H.
  - apply (Hratio example_predict example_sample_short).
    + vm_compute. reflexivity.
    + reflexivity.
Defined.

(** C7. When the dataset has no reference span at all,
    [Trainer.check_coverage_detected_spans] never returns a ratio; and
    when every sample can be decoded, the call ends in the division by
    zero. *)
Theorem C7_empty_reference_division_error
  (predict : list Z -> list Z -> ndarray2) (data : list (list Sample)) :
  total_reference data = 0 ->
  (forall cov, check_coverage_detected_spans predict data <> Return cov) /\
  (Forall (Forall (well_shaped predict)) data ->
   check_coverage_detected_spans predict data = Raise ZeroDivisionError).
Proof.
  intros Hzero. unfold check_coverage_detected_spans. split.
  - intros cov H.
    apply bind_Return in H. destruct H as (c & Hc & H).
    apply coverage_counters_counted in Hc. destruct Hc as (Htn & _).
    unfold py_truediv in H. rewrite Htn, Hzero in H. cbn in H. discriminate H.
  - intros Hw.
    destruct (coverage_data_returns predict data (mk_counters 0 0 0) Hw)
      as (c & Hc).
    fold (coverage_counters predict data) in Hc. rewrite Hc.
    apply coverage_counters_counted in Hc. destruct Hc as (Htn & _).
    cbn [mbind result_bind]. unfold py_truediv.
    rewrite Htn, Hzero. reflexivity.
Qed.

Lemma C7_witness :
  (forall cov,
     check_coverage_detected_spans example_predict
       [[example_sample_unlabelled]; []; [example_sample_unlabelled]]
     <> Return cov) /\
  check_coverage_detected_spans example_predict
    [[example_sample_unlabelled]; []; [example_sample_unlabelled]]
  = Raise ZeroDivisionError.
Proof.
  assert (H0 : total_reference
                 [[example_sample_unlabelled]; []; [example_sample_unlabelled]]
               = 0) by reflexivity.
  destruct (C7_empty_reference_division_error example_predict _ H0)
    as [Hnever Hraise].
  split; [exact Hnever |].
  apply Hraise.
  repeat constructor; vm_compute; lia.
Defined.

(** C8. Whenever [Trainer.check_coverage_detected_spans] returns, the
    total reference count is not zero, the summed intersection counts lie
    between 0 and the summed reference counts, the returned ratio is
    their quotient and lies in [0, 1], and the reported number of
    predicted spans is not negative. *)
Theorem C8_ratio_in_unit_interval
  (predict : list Z -> list Z -> ndarray2) (data : list (list Sample))
  (cov : coverage) :
  check_coverage_detected_spans predict data = Return cov ->
  exists c : counters,
    coverage_counters predict data = Return c /\
    true_num c = total_reference data /\
    total_reference data <> 0 /\
    0 <= num_correct_predicted c <= true_num c /\
    ratio cov = (inject_Z (num_correct_predicted c) / inject_Z (true_num c))%Q /\
    (0 <= ratio cov <= 1)%Q /\
    extracted_spans cov = num_predicted c /\
    0 <= extracted_spans cov.
Proof.
  unfold check_coverage_detected_spans. intros H.
  apply bind_Return in H. destruct H as (c & Hc & H).
  exists c. split; [exact Hc |].
  apply coverage_counters_counted in Hc. destruct Hc as (Htn & Hnp & Hnc).
  unfold py_truediv in H.
  destruct (true_num c =? 0) eqn:E; [discriminate H |].
  apply Z.eqb_neq in E. cbn [mbind result_bind] in H.
  injection H as <-. cbn [ratio extracted_spans].
  split; [exact Htn |].
  split; [rewrite <- Htn; exact E |].
  split; [exact Hnc |].
  split; [reflexivity |].
  split; [apply truediv_unit_interval; assumption |].
  split; [reflexivity | exact Hnp].
Qed.

Lemma C8_witness :
  exists c : counters,
    coverage_counters example_predict [[example_sample_short]] = Return c /\
    true_num c = total_reference [[example_sample_short]] /\
    total_reference [[example_sample_short]] <> 0 /\
    0 <= num_correct_predicted c <= true_num c /\
    (2 # 3 = inject_Z (num_correct_predicted c) / inject_Z (true_num c))%Q /\
    (0 <= 2 # 3 <= 1)%Q /\
    2 = num_predicted c /\
    0 <= 2.
Proof.
  apply (C8_ratio_in_unit_interval example_predict [[example_sample_short]]
           {| ratio := 2 # 3; extracted_spans := 2 |}).
  vm_compute. reflexivity.
Defined.

Lemma windows2_snoc (l : list Z) (a b : Z) :
  windows2 (l ++ [a; b]) = windows2 (l ++ [a]) ++ [(a, b)].
Proof.
  induction l as [| x [| y l] IH]; try reflexivity.
  change (windows2 ((x :: y :: l) ++ [a; b]))
    with ((x, y) :: windows2 ((y :: l) ++ [a; b])).
  change (windows2 ((x :: y :: l) ++ [a]))
    with ((x, y) :: windows2 ((y :: l) ++ [a])).
  rewrite IH. reflexivity.
Qed.





Lemma one_hot_not_split (n : nat) :
  (1 <= n)%nat ->
  exists fill, one_hot n int_ChunkCode_NOT_SPLIT = Return fill /\
               not_split_vector n fill.
Proof.
  intros Hn. unfold one_hot, int_ChunkCode_NOT_SPLIT.
  change (0 <? 0) with false. cbn match.
  replace (Z.of_nat n <=? 0) with false by (symmetry; apply Z.leb_gt; lia).
  cbn [orb Z.to_nat]. eexists. split; [reflexivity |].
  split.
  - rewrite length_insert, length_replicate. reflexivity.
  - intros j Hj. destruct j as [| j].
    + cbn [Z.of_nat Z.eqb]. apply list_lookup_insert_eq.
      rewrite length_replicate. lia.
    + rewrite list_lookup_insert_ne by lia.
      replace (Z.of_nat (S j) =? 0) with false by (symmetry; apply Z.eqb_neq; lia).
      apply lookup_replicate_2. exact Hj.
Qed.

(** C10. For a model output with at least one class and one mask entry
    per row, [Trainer._model_out_for_metrics] returns an array of the same
    shape: a row whose mask entry is true is the row of [model_out], a row
    whose mask entry is false is the vector with 1 at [NOT_SPLIT] and 0
    elsewhere.  Every row is of one of these two kinds, so nothing else
    changes. *)
Theorem C10_model_out_for_metrics_rows
  (model_out : ndarray2) (batch : list Sample) :
  (1 <= shape1 model_out)%nat ->
  length (concat (map sub_words_mask batch)) = length (rows model_out) ->
  exists (out : ndarray2) (fill : list float),
    _model_out_for_metrics model_out batch = Return out /\
    not_split_vector (shape1 model_out) fill /\
    shape1 out = shape1 model_out /\
    length (rows out) = length (rows model_out) /\
    (ndarray2_wf model_out -> ndarray2_wf out) /\
    forall (i : nat) (c : Z) (r : list float),
      concat (map sub_words_mask batch) !! i = Some c ->
      rows model_out !! i = Some r ->
      rows out !! i = Some (if truthy c then r else fill).
Proof.
  intros HC Hlen. unfold _model_out_for_metrics.
  destruct (one_hot_not_split (shape1 model_out) HC) as (fill & -> & Hfill).
  cbn [mbind result_bind]. unfold torch_where.
  rewrite length_map, Hlen, Nat.eqb_refl.
  eexists. exists fill. split; [reflexivity |]. cbn [shape1 rows].
  split; [exact Hfill |]. split; [reflexivity |].
  split; [rewrite length_zip_with, length_map; lia |]. split.
  - unfold ndarray2_wf. cbn [shape1 rows]. intros Hwf.
    apply List.Forall_forall. intros r Hr.
    apply list_elem_of_In, list_elem_of_lookup in Hr. destruct Hr as (i & Hi).
    apply lookup_zip_with_Some in Hi. destruct Hi as (b & x & -> & _ & Hx).
    destruct b; [| apply Hfill].
    rewrite List.Forall_forall in Hwf. apply Hwf.
    apply list_elem_of_In, list_elem_of_lookup. exists i. exact Hx.
  - intros i c r Hc Hr.
    rewrite lookup_zip_with, list_lookup_fmap, Hc, Hr. reflexivity.
Qed.

Lemma C10_witness :
  exists (out : ndarray2) (fill : list float),
    _model_out_for_metrics example_model_out example_batch = Return out /\
    not_split_vector 2 fill /\
    shape1 out = 2%nat /\
    length (rows out) = 3%nat /\
    (ndarray2_wf example_model_out -> ndarray2_wf out) /\
    forall (i : nat) (c : Z) (r : list float),
      [1; 0; 1] !! i = Some c ->
      rows example_model_out !! i = Some r ->
      rows out !! i = Some (if truthy c then r else fill).
Proof.
  apply (C10_model_out_for_metrics_rows example_model_out example_batch).
  - cbn. lia.
  - reflexivity.
Defined.

(** ** Further facts on the decoder *)

Lemma windows2_members (b : list Z) (w : Z * Z) :
  In w (windows2 b) -> In (fst w) b /\ In (snd w) b.
Proof.
  induction b as [| x [| y t] IH].
  1, 2: intros [].
  change (windows2 (x :: y :: t)) with ((x, y) :: windows2 (y :: t)).
  intros [<- | Hw].
  - cbn. tauto.
  - destruct (IH Hw) as [H1 H2]. split; right; assumption.
Qed.

Lemma delete_degenerate_In (spans : list span) (s : span) :
  In s (delete_degenerate spans) -> In s spans.
Proof.
  unfold delete_degenerate. rewrite filter_In. tauto.
Qed.

(** Decoding a strictly increasing index list closed by a right sentinel
    gives a contiguous sequence that, if not empty, starts at the first
    index. *)
Lemma decode_chain (idx : list Z) (e : Z) :
  StronglySorted Z.lt idx ->
  let out := delete_degenerate (map dec_end (windows2 (idx ++ [e]))) in
  contiguous out /\
  forall s, head out = Some s -> head idx = Some (fst s).
Proof.
  unfold contiguous.
  induction idx as [| i idx IH]; intros Hs.
  - cbn. split; [constructor | discriminate].
  - apply StronglySorted_inv in Hs. destruct Hs as [Hs Hi].
    destruct idx as [| j idx].
    + cbn. destruct (i >? e - 1); cbn.
      * split; [constructor | discriminate].
      * split; [repeat constructor |]. intros s H. injection H as <-. reflexivity.
    + change (windows2 ((i :: j :: idx) ++ [e]))
        with ((i, j) :: windows2 ((j :: idx) ++ [e])).
      assert (Hij : i < j) by (apply Forall_cons_1 in Hi; tauto).
      destruct (IH Hs) as [IH1 IH2].
      cbn [map delete_degenerate List.filter dec_end fst snd].
      replace (i >? j - 1) with false
        by (rewrite Z.gtb_ltb; symmetry; apply Z.ltb_ge; lia).
      cbn [negb]. split.
      * constructor; [exact IH1 |].
        destruct (List.filter (fun s => negb (fst s >? snd s))
                    (map dec_end (windows2 ((j :: idx) ++ [e]))))
          as [| s out] eqn:E; constructor.
        specialize (IH2 s). unfold delete_degenerate in IH2.
        rewrite E in IH2. specialize (IH2 eq_refl).
        injection IH2 as IH2. unfold adjacent. cbn. lia.
      * intros s H. injection H as <-. reflexivity.
Qed.

(** If moreover every index lies below the right sentinel, the decoded
    sequence is not empty and ends right before the sentinel. *)
Lemma decode_ends (idx : list Z) (i e : Z) :
  StronglySorted Z.lt (i :: idx) ->
  Forall (fun j => j < e) (i :: idx) ->
  exists s t,
    head (delete_degenerate (map dec_end (windows2 ((i :: idx) ++ [e]))))
      = Some s /\
    last (delete_degenerate (map dec_end (windows2 ((i :: idx) ++ [e]))))
      = Some t /\
    fst s = i /\ snd t = e - 1.
Proof.
  revert i. induction idx as [| j idx IH]; intros i Hs Hlt.
  - apply Forall_cons_1 in Hlt. destruct Hlt as [Hlt _].
    cbn. replace (i >? e - 1) with false
      by (rewrite Z.gtb_ltb; symmetry; apply Z.ltb_ge; lia).
    cbn. exists (i, e - 1), (i, e - 1). repeat split; reflexivity.
  - apply StronglySorted_inv in Hs. destruct Hs as [Hs Hi].
    apply Forall_cons_1 in Hlt. destruct Hlt as [_ Hlt].
    assert (Hij : i < j) by (apply Forall_cons_1 in Hi; tauto).
    destruct (IH j Hs Hlt) as (s & t & Hhead & Hlast & Hfst & Hsnd).
    change (windows2 ((i :: j :: idx) ++ [e]))
      with ((i, j) :: windows2 ((j :: idx) ++ [e])).
    cbn [map delete_degenerate List.filter dec_end fst snd].
    replace (i >? j - 1) with false
      by (rewrite Z.gtb_ltb; symmetry; apply Z.ltb_ge; lia).
    cbn [negb]. fold (delete_degenerate
                        (map dec_end (windows2 ((j :: idx) ++ [e])))).
    destruct (delete_degenerate (map dec_end (windows2 ((j :: idx) ++ [e]))))
      as [| s' out]; [discriminate Hhead |].
    exists (i, j - 1), t. repeat split; try reflexivity; try assumption.
Qed.

Lemma decode_boundaries_chain (idx : list Z) (o e : Z) :
  StronglySorted Z.lt idx ->
  contiguous (delete_degenerate (map dec_end (windows2 (np_pad1 idx o e)))).
Proof.
  intros Hs. unfold np_pad1, contiguous.
  destruct idx as [| i idx].
  - cbn. destruct (o >? e - 1); cbn; repeat constructor.
  - change (windows2 ([o] ++ (i :: idx) ++ [e]))
      with ((o, i) :: windows2 ((i :: idx) ++ [e])).
    destruct (decode_chain (i :: idx) e Hs) as [H1 H2].
    cbn [map delete_degenerate List.filter dec_end fst snd].
    destruct (o >? i - 1); cbn [negb]; [exact H1 |].
    constructor; [exact H1 |].
    fold (delete_degenerate (map dec_end (windows2 ((i :: idx) ++ [e])))).
    destruct (delete_degenerate (map dec_end (windows2 ((i :: idx) ++ [e]))))
      as [| s out]; constructor.
    specialize (H2 s eq_refl). injection H2 as H2.
    unfold adjacent. cbn. lia.
Qed.

(** X1. The spans returned by [Trainer._get_predicted_spans] are
    contiguous: each one starts at the index right after the end of the
    span before it. *)
Theorem X1_predicted_spans_contiguous
  (predict : list Z -> list Z -> ndarray2) (sample : Sample)
  (spans : list span) :
  _get_predicted_spans predict sample = Return spans ->
  contiguous spans.
Proof.
  intros H.
  apply _get_predicted_spans_Return in H. destruct H as (b & Hb & ->).
  apply _predicted_boundaries_Return in Hb. destruct Hb as (preds & ->).
  apply decode_boundaries_chain, nonzero_from_sorted.
Qed.

Lemma X1_witness : contiguous [(0, 2); (3, 4); (5, 5)].
Proof.
  apply (X1_predicted_spans_contiguous example_predict example_sample).
  vm_compute. reflexivity.
Defined.

(** X2. For a sample whose scores and mask cover its N tokens and an
    offset between 0 and N, [Trainer._get_predicted_spans] returns, and
    every returned span lies within the sentence:
    0 <= start <= end <= N - 1. *)
Theorem X2_predicted_spans_within_sentence
  (predict : list Z -> list Z -> ndarray2) (sample : Sample) :
  well_shaped predict sample ->
  0 <= offset sample <= Z.of_nat (encoded_sentence_length sample) ->
  exists spans,
    _get_predicted_spans predict sample = Return spans /\
    Forall (span_within (Z.of_nat (encoded_sentence_length sample))) spans.
Proof.
  intros Hw Ho. unfold _get_predicted_spans.
  rewrite (_predicted_boundaries_well_shaped predict sample Hw).
  cbn [mbind result_bind]. eexists. split; [reflexivity |].
  apply List.Forall_forall. intros s Hs.
  pose proof (delete_degenerate_valid
                (map dec_end (windows2
                   (np_pad1 (nonzero (masked_predictions predict sample))
                      (offset sample)
                      (Z.of_nat (encoded_sentence_length sample)
                       - offset sample))))) as Hv.
  rewrite List.Forall_forall in Hv. specialize (Hv s Hs).
  apply delete_degenerate_In in Hs. apply in_map_iff in Hs.
  destruct Hs as (w & <- & Hw2). apply windows2_members in Hw2.
  assert (Hb : forall x,
             In x (np_pad1 (nonzero (masked_predictions predict sample))
                     (offset sample)
                     (Z.of_nat (encoded_sentence_length sample) - offset sample)) ->
             0 <= x <= Z.of_nat (encoded_sentence_length sample)).
  { intros x Hx. unfold np_pad1 in Hx.
    apply in_app_or in Hx. destruct Hx as [[<- | []] | Hx]; [lia |].
    apply in_app_or in Hx. destruct Hx as [Hx | [<- | []]]; [| lia].
    pose proof (nonzero_from_bounds (masked_predictions predict sample) 0) as Hn.
    rewrite List.Forall_forall in Hn. specialize (Hn x Hx).
    rewrite (masked_predictions_length predict sample Hw) in Hn. lia. }
  destruct Hw2 as [H1 H2]. apply Hb in H1. apply Hb in H2.
  unfold span_within, span_valid, dec_end in *. cbn in *. lia.
Qed.

Lemma X2_witness :
  exists spans,
    _get_predicted_spans example_predict example_sample_offset1 = Return spans /\
    Forall (span_within 6) spans.
Proof.
  apply (X2_predicted_spans_within_sentence
           example_predict example_sample_offset1).
  - vm_compute. repeat split; lia.
  - cbn. lia.
Defined.

(** X3. With offset 0, a sentence of N >= 1 tokens covered by scores and
    mask is cut into spans that cover it exactly: the first span starts at
    0, the last ends at N - 1, and the sequence is contiguous. *)
Theorem X3_offset_zero_covers_sentence
  (predict : list Z -> list Z -> ndarray2) (sample : Sample) :
  well_shaped predict sample ->
  offset sample = 0 ->
  (1 <= encoded_sentence_length sample)%nat ->
  exists (spans : list span) (s t : span),
    _get_predicted_spans predict sample = Return spans /\
    contiguous spans /\
    head spans = Some s /\ fst s = 0 /\
    last spans = Some t /\
    snd t = Z.of_nat (encoded_sentence_length sample) - 1.
Proof.
  intros Hw Ho HN. unfold _get_predicted_spans.
  rewrite (_predicted_boundaries_well_shaped predict sample Hw).
  cbn [mbind result_bind]. rewrite Ho, Z.sub_0_r.
  pose proof (nonzero_from_bounds (masked_predictions predict sample) 0) as Hb.
  pose proof (nonzero_from_sorted (masked_predictions predict sample) 0) as Hs.
  rewrite (masked_predictions_length predict sample Hw) in Hb.
  fold (nonzero (masked_predictions predict sample)) in Hb, Hs.
  pose proof (decode_boundaries_chain
                (nonzero (masked_predictions predict sample)) 0
                (Z.of_nat (encoded_sentence_length sample)) Hs) as Hc.
  revert Hc. unfold np_pad1.
  destruct (nonzero (masked_predictions predict sample)) as [| i idx].
  - intros Hc. unfold delete_degenerate, dec_end in *.
    cbn [app windows2 map List.filter fst snd] in *.
    replace (0 >? Z.of_nat (encoded_sentence_length sample) - 1) with false in *
      by (rewrite Z.gtb_ltb; symmetry; apply Z.ltb_ge; lia).
    cbn [negb] in *. eexists. eexists. eexists.
    split; [reflexivity |]. split; [exact Hc |].
    repeat split; reflexivity.
  - change (windows2 ([0] ++ (i :: idx) ++ [Z.of_nat (encoded_sentence_length sample)]))
      with ((0, i) :: windows2 ((i :: idx)
                                ++ [Z.of_nat (encoded_sentence_length sample)])).
    destruct (decode_ends idx i (Z.of_nat (encoded_sentence_length sample)) Hs)
      as (s & t & Hhead & Hlast & Hfst & Hsnd).
    { eapply Forall_impl; [exact Hb |]. cbn beta. intros; lia. }
    cbn [map delete_degenerate List.filter dec_end fst snd].
    fold (delete_degenerate
            (map dec_end (windows2 ((i :: idx)
               ++ [Z.of_nat (encoded_sentence_length sample)])))).
    apply Forall_cons_1 in Hb. destruct Hb as [Hi _].
    destruct (0 >? i - 1) eqn:E; cbn [negb]; intros Hc.
    + exists (delete_degenerate
                (map dec_end (windows2 ((i :: idx)
                   ++ [Z.of_nat (encoded_sentence_length sample)])))), s, t.
      split; [reflexivity |]. split; [exact Hc |].
      apply Z.gtb_lt in E. repeat split; try assumption. lia.
    + destruct (delete_degenerate
                  (map dec_end (windows2 ((i :: idx)
                     ++ [Z.of_nat (encoded_sentence_length sample)]))))
        as [| s' out] eqn:Eo; [discriminate Hhead |].
      exists ((0, i - 1) :: s' :: out), (0, i - 1), t.
      split; [reflexivity |]. split; [exact Hc |].
      repeat split; try reflexivity; assumption.
Qed.

Lemma X3_witness :
  exists (spans : list span) (s t : span),
    _get_predicted_spans example_predict example_sample = Return spans /\
    contiguous spans /\
    head spans = Some s /\ fst s = 0 /\
    last spans = Some t /\ snd t = 5.
Proof.
  apply (X3_offset_zero_covers_sentence example_predict example_sample).
  - vm_compute. repeat split; lia.
  - reflexivity.
  - cbn. lia.
Defined.

Lemma nonzero_nil (l : list Z) :
  (forall (k : nat) (x : Z), l !! k = Some x -> truthy x = false) ->
  nonzero l = [].
Proof.
  intros H. destruct (nonzero l) as [| i idx] eqn:E; [reflexivity |].
  assert (Hi : In i (nonzero l)) by (rewrite E; left; reflexivity).
  unfold nonzero in Hi. apply nonzero_from_In in Hi.
  destruct Hi as (k & x & _ & Hk & Hx).
  rewrite (H k x Hk) in Hx. discriminate Hx.
Qed.

(** X4. When no token of the sentence is predicted as a split (at every
    position below N where the mask is true the split score is below
    0.5), [Trainer._get_predicted_spans] returns the single span
    (o, N - o - 1) running from the offset to the mirrored offset, and no
    span at all if that range is empty. *)
Theorem X4_no_split_single_span
  (predict : list Z -> list Z -> ndarray2) (sample : Sample) :
  well_shaped predict sample ->
  (forall (k : nat) (c : Z) (r : list float),
     (k < encoded_sentence_length sample)%nat ->
     sub_words_mask sample !! k = Some c -> truthy c = true ->
     rows (predict (sentence sample) (mask sample)) !! k = Some r ->
     (0.5 <=? nth 1 r 0)%float = false) ->
  _get_predicted_spans predict sample
  = Return (if offset sample
               <=? Z.of_nat (encoded_sentence_length sample) - offset sample - 1
            then [(offset sample,
                   Z.of_nat (encoded_sentence_length sample) - offset sample - 1)]
            else []).
Proof.
  intros Hw Hno. unfold _get_predicted_spans.
  rewrite (_predicted_boundaries_well_shaped predict sample Hw).
  cbn [mbind result_bind].
  rewrite nonzero_nil.
  - unfold np_pad1, delete_degenerate, dec_end.
    cbn [app windows2 map List.filter fst snd].
    rewrite Z.gtb_ltb, Z.leb_antisym.
    destruct (Z.of_nat (encoded_sentence_length sample) - offset sample - 1
              <? offset sample); reflexivity.
  - intros k x Hk. unfold masked_predictions, binarize in Hk.
    apply lookup_zip_with_Some in Hk. destruct Hk as (c & v & -> & Hc & Hv).
    apply lookup_take_Some in Hc. destruct Hc as [Hc Hlt].
    apply lookup_take_Some in Hv. destruct Hv as [Hv _].
    rewrite !list_lookup_fmap in Hv.
    destruct (rows (predict (sentence sample) (mask sample)) !! k) as [r |] eqn:Hr;
      [| discriminate Hv].
    cbn in Hv. injection Hv as <-.
    destruct (truthy c) eqn:Ht; [| reflexivity].
    rewrite (Hno k c r Hlt Hc Ht Hr). reflexivity.
Qed.

Lemma X4_witness :
  _get_predicted_spans example_predict_flat example_sample_flat
  = Return [(0, 3)].
Proof.
  apply (X4_no_split_single_span example_predict_flat example_sample_flat).
  - vm_compute. repeat split; lia.
  - intros k c r Hk Hc Ht Hr.
    do 4 (destruct k as [| k];
          [cbn in Hr; injection Hr as <-; reflexivity |]).
    cbn in Hk. lia.
Defined.

(** X5. [Trainer._get_predicted_spans] raises IndexError when the scorer
    returns fewer than two classes per token, and ValueError when, with at
    least two classes, the truncated mask and the truncated scores have
    different lengths none of which is one (they cannot be broadcast). *)
Theorem X5_decoder_errors
  (predict : list Z -> list Z -> ndarray2) (sample : Sample) :
  ((shape1 (predict (sentence sample) (mask sample)) < 2)%nat ->
   _get_predicted_spans predict sample = Raise IndexError) /\
  ((2 <= shape1 (predict (sentence sample) (mask sample)))%nat ->
   let t := Nat.min (encoded_sentence_length sample)
              (length (rows (predict (sentence sample) (mask sample)))) in
   let m := Nat.min (encoded_sentence_length sample)
              (length (sub_words_mask sample)) in
   m <> t -> m <> 1%nat -> t <> 1%nat ->
   _get_predicted_spans predict sample = Raise ValueError).
Proof.
  split.
  - intros H. unfold _get_predicted_spans, _predicted_boundaries, column1.
    apply Nat.ltb_lt in H. rewrite H. reflexivity.
  - intros H t m Hmt Hm Ht. subst t m.
    unfold _get_predicted_spans, _predicted_boundaries, column1.
    apply Nat.ltb_ge in H. rewrite H.
    cbn [mbind result_bind].
    set (m := Nat.min (encoded_sentence_length sample)
                (length (sub_words_mask sample))) in *.
    set (t := Nat.min (encoded_sentence_length sample)
                (length (rows (predict (sentence sample) (mask sample))))) in *.
    assert (Hlm : length (take (encoded_sentence_length sample)
                            (sub_words_mask sample)) = m)
      by (rewrite length_take; reflexivity).
    assert (Hlt : length (take (encoded_sentence_length sample)
                            (binarize (map (fun r => nth 1 r 0%float)
                               (rows (predict (sentence sample) (mask sample))))))
                  = t)
      by (unfold binarize; rewrite length_take, !length_map; reflexivity).
    unfold np_where. rewrite Hlm, Hlt.
    rewrite (proj2 (Nat.eqb_neq m t) Hmt).
    destruct (take (encoded_sentence_length sample) (sub_words_mask sample))
      as [| c [| c' cs]];
      destruct (take (encoded_sentence_length sample)
                  (binarize (map (fun r => nth 1 r 0%float)
                     (rows (predict (sentence sample) (mask sample))))))
        as [| v [| v' vs]];
      cbn [length] in Hlm, Hlt; try reflexivity; congruence.
Qed.

Lemma X5_witness :
  _get_predicted_spans example_predict_one_class example_sample
    = Raise IndexError /\
  _get_predicted_spans example_predict example_sample_short_mask
    = Raise ValueError.
Proof.
  split.
  - apply (proj1 (X5_decoder_errors example_predict_one_class example_sample)).
    cbn. lia.
  - apply (proj2 (X5_decoder_errors example_predict example_sample_short_mask)).
    + cbn. lia.
    + cbn. lia.
    + cbn. lia.
    + cbn. lia.
Defined.

(** X6. [Trainer._get_predicted_spans] looks at the first N scores and
    mask entries only: two samples with the same offset and length N whose
    scores and masks agree on the first N positions decode alike, whatever
    padding follows. *)
Theorem X6_padding_ignored
  (predict1 predict2 : list Z -> list Z -> ndarray2) (sample1 sample2 : Sample) :
  offset sample1 = offset sample2 ->
  encoded_sentence_length sample1 = encoded_sentence_length sample2 ->
  shape1 (predict1 (sentence sample1) (mask sample1))
    = shape1 (predict2 (sentence sample2) (mask sample2)) ->
  take (encoded_sentence_length sample1)
       (rows (predict1 (sentence sample1) (mask sample1)))
    = take (encoded_sentence_length sample1)
        (rows (predict2 (sentence sample2) (mask sample2))) ->
  take (encoded_sentence_length sample1) (sub_words_mask sample1)
    = take (encoded_sentence_length sample1) (sub_words_mask sample2) ->
  _get_predicted_spans predict1 sample1 = _get_predicted_spans predict2 sample2.
Proof.
  intros Ho HN HC Hrows Hmask.
  unfold _get_predicted_spans, _predicted_boundaries, column1, binarize.
  rewrite <- Ho, <- HN, <- HC, <- Hmask.
  destruct (shape1 (predict1 (sentence sample1) (mask sample1)) <? 2)%nat;
    [reflexivity |].
  cbn [mbind result_bind].
  rewrite !firstn_map, Hrows. reflexivity.
Qed.

Lemma X6_witness :
  _get_predicted_spans example_predict example_sample_short
  = _get_predicted_spans example_predict_padded example_sample_padded.
Proof.
  apply (X6_padding_ignored example_predict example_predict_padded
           example_sample_short example_sample_padded);
    reflexivity.
Defined.

(** ** Further facts on [construct_spans_ranges] *)

Lemma windows_dec_contiguous (b : list Z) :
  contiguous (map dec_end (windows2 b)).
Proof.
  unfold contiguous.
  induction b as [| x [| y t] IH].
  1, 2: cbn; constructor.
  change (windows2 (x :: y :: t)) with ((x, y) :: windows2 (y :: t)).
  cbn [map]. constructor; [exact IH |].
  destruct t as [| z t]; [constructor |].
  change (windows2 (y :: z :: t)) with ((y, z) :: windows2 (z :: t)).
  cbn [map]. constructor. unfold adjacent, dec_end. cbn. lia.
Qed.

Lemma construct_spans_ranges_sample_raises (sample : Sample) (e : exn) :
  construct_spans_ranges_sample sample = Raise e -> e = RuntimeError.
Proof.
  unfold construct_spans_ranges_sample.
  destruct (nonzero (words_mask sample)) as [| p [| q idx]]; cbn; intros H;
    try discriminate H.
  injection H as <-. reflexivity.
Qed.

Lemma construct_spans_ranges_sample_one (sample : Sample) :
  count_true (words_mask sample) = 1%nat ->
  construct_spans_ranges_sample sample = Raise RuntimeError.
Proof.
  intros H. rewrite <- (nonzero_from_length (words_mask sample) 0) in H.
  fold (nonzero (words_mask sample)) in H.
  unfold construct_spans_ranges_sample.
  destruct (nonzero (words_mask sample)) as [| p [| q idx]];
    try discriminate H.
  reflexivity.
Qed.

(** X7. [construct_spans_ranges] returns exactly when no sample of the
    batch has a mask with a single true entry: for such a mask
    [nonzero().squeeze()] is a scalar, which cannot be padded, and the call
    raises RuntimeError. *)
Theorem X7_ranges_single_word_raises (batch : list Sample) :
  (Forall (fun s => count_true (words_mask s) <> 1%nat) batch ->
   exists out, construct_spans_ranges batch = Return out) /\
  (Exists (fun s => count_true (words_mask s) = 1%nat) batch ->
   construct_spans_ranges batch = Raise RuntimeError).
Proof.
  unfold construct_spans_ranges. split.
  - induction 1 as [| s batch Hs _ (out & IH)].
    + exists []. reflexivity.
    + destruct (construct_spans_ranges_sample_not_one s Hs) as (spans & Hspans).
      exists (spans :: out). cbn [forM]. rewrite Hspans, IH. reflexivity.
  - induction 1 as [s batch Hs | s batch _ IH]; cbn [forM].
    + rewrite (construct_spans_ranges_sample_one s Hs). reflexivity.
    + destruct (construct_spans_ranges_sample s) as [e | spans] eqn:E.
      * apply construct_spans_ranges_sample_raises in E. subst e. reflexivity.
      * cbn [mbind result_bind]. rewrite IH. reflexivity.
Qed.

Lemma X7_witness :
  (exists out,
     construct_spans_ranges [example_sample; example_sample_reserved]
       = Return out) /\
  construct_spans_ranges
    [example_sample; example_sample_one_word; example_sample_reserved]
    = Raise RuntimeError.
Proof.
  split.
  - apply (proj1 (X7_ranges_single_word_raises
                    [example_sample; example_sample_reserved])).
    repeat constructor; vm_compute; lia.
  - apply (proj2 (X7_ranges_single_word_raises
                    [example_sample; example_sample_one_word;
                     example_sample_reserved])).
    right. left. reflexivity.
Defined.

(** The pairs built over [a, p_1 .. p_k, m, n] with [m < n] are all valid
    exactly when every p_j lies strictly between [a] and [m]. *)
Lemma windows_valid_iff (idx : list Z) (a m n : Z) :
  m < n ->
  StronglySorted Z.lt idx ->
  Forall span_valid (map dec_end (windows2 (a :: idx ++ [m; n]))) <->
  a < m /\ Forall (fun p => a < p < m) idx.
Proof.
  intros Hmn. revert a. induction idx as [| p idx IH]; intros a Hs.
  - cbn. unfold span_valid, dec_end. split.
    + intros H. apply Forall_cons_1 in H. cbn in H. split; [lia | constructor].
    + intros [H _]. repeat constructor; cbn; lia.
  - apply StronglySorted_inv in Hs. destruct Hs as [Hs Hp].
    change (windows2 (a :: (p :: idx) ++ [m; n]))
      with ((a, p) :: windows2 (p :: idx ++ [m; n])).
    cbn [map]. rewrite Forall_cons_iff, (IH p Hs), Forall_cons_iff.
    unfold span_valid, dec_end. cbn [fst snd]. split.
    + intros (Hap & Hpm & Hall). split; [lia |]. split; [lia |].
      eapply Forall_impl; [exact Hall |]. cbn beta. intros; lia.
    + intros (Ham & Hapm & Hall). split; [lia |]. split; [lia |].
      apply List.Forall_forall. intros q Hq.
      rewrite List.Forall_forall in Hall, Hp.
      specialize (Hall q Hq). specialize (Hp q Hq). lia.
Qed.

(** X8. The pairs [construct_spans_ranges] returns for a sample are all
    valid spans (start <= end) exactly when the sentence has at least two
    tokens and the mask is true only at positions between 1 and L - 2,
    that is false at the first token and from the last token on. *)
Theorem X8_ranges_valid_iff_mask_inside
  (batch : list Sample) (out : list (list span)) :
  construct_spans_ranges batch = Return out ->
  Forall2 (fun s spans =>
             Forall span_valid spans <->
             2 <= Z.of_nat (encoded_sentence_length s) /\
             forall (k : nat) (c : Z),
               words_mask s !! k = Some c -> truthy c = true ->
               1 <= Z.of_nat k <= Z.of_nat (encoded_sentence_length s) - 2)
    batch out.
Proof.
  intros H. apply forM_Return in H.
  eapply Forall2_impl; [exact H |]. cbn beta. clear H.
  intros s spans Hs.
  apply construct_spans_ranges_sample_Return in Hs. subst spans.
  cbn [app].
  rewrite (windows_valid_iff (nonzero (words_mask s)) 0
             (Z.of_nat (encoded_sentence_length s) - 1)
             (Z.of_nat (encoded_sentence_length s))
             ltac:(lia) (nonzero_from_sorted (words_mask s) 0)).
  rewrite List.Forall_forall. unfold nonzero.
  split.
  - intros [HL Hall]. split; [lia |]. intros k c Hk Hc.
    specialize (Hall (Z.of_nat k)).
    rewrite nonzero_from_In in Hall.
    assert (Hex : exists (k0 : nat) (x : Z),
               Z.of_nat k = 0 + Z.of_nat k0 /\ words_mask s !! k0 = Some x /\
               truthy x = true)
      by (exists k, c; split; [lia | split; assumption]).
    specialize (Hall Hex). lia.
  - intros [HL Hall]. split; [lia |]. intros p Hp.
    apply nonzero_from_In in Hp. destruct Hp as (k & c & -> & Hk & Hc).
    specialize (Hall k c Hk Hc). lia.
Qed.

Lemma X8_witness :
  Forall2 (fun s spans =>
             Forall span_valid spans <->
             2 <= Z.of_nat (encoded_sentence_length s) /\
             forall (k : nat) (c : Z),
               words_mask s !! k = Some c -> truthy c = true ->
               1 <= Z.of_nat k <= Z.of_nat (encoded_sentence_length s) - 2)
    [example_sample_reserved; example_sample]
    [[(0, 0); (1, 2); (3, 3); (4, 5); (6, 6)];
     [(0, -1); (0, 2); (3, 4); (5, 4); (5, 5)]].
Proof.
  apply (X8_ranges_valid_iff_mask_inside
           [example_sample_reserved; example_sample]).
  vm_compute. reflexivity.
Defined.

(** X9. Whatever the mask, the pairs [construct_spans_ranges] returns for
    a sample of a sentence of length L form a chain over the whole
    sentence: the first pair starts at 0, every pair starts right after
    the end of the pair before it, and the last pair is (L - 1, L - 1). *)
Theorem X9_ranges_chain_over_sentence
  (batch : list Sample) (out : list (list span)) :
  construct_spans_ranges batch = Return out ->
  Forall2 (fun s spans =>
             contiguous spans /\
             (exists e, head spans = Some (0, e)) /\
             last spans = Some (Z.of_nat (encoded_sentence_length s) - 1,
                                Z.of_nat (encoded_sentence_length s) - 1))
    batch out.
Proof.
  intros H. apply forM_Return in H.
  eapply Forall2_impl; [exact H |]. cbn beta. clear H.
  intros s spans Hs.
  apply construct_spans_ranges_sample_Return in Hs. subst spans.
  split; [apply windows_dec_contiguous |]. split.
  - cbn [app].
    destruct (nonzero (words_mask s)) as [| p idx]; cbn; eexists; reflexivity.
  - rewrite !app_assoc, windows2_snoc, map_app. cbn [map].
    rewrite last_snoc. reflexivity.
Qed.

Lemma X9_witness :
  Forall2 (fun s spans =>
             contiguous spans /\
             (exists e, head spans = Some (0, e)) /\
             last spans = Some (Z.of_nat (encoded_sentence_length s) - 1,
                                Z.of_nat (encoded_sentence_length s) - 1))
    [example_sample_reserved]
    [[(0, 0); (1, 2); (3, 3); (4, 5); (6, 6)]].
Proof.
  apply (X9_ranges_chain_over_sentence [example_sample_reserved]).
  vm_compute. reflexivity.
Defined.

(** ** Further facts on the coverage evaluation *)

Lemma list_to_set_same_members (l1 l2 : list span) :
  (forall x, In x l1 <-> In x l2) ->
  (list_to_set l1 : gset span) = list_to_set l2.
Proof.
  intros H. apply set_eq. intros x.
  rewrite !elem_of_list_to_set, !list_elem_of_In. apply H.
Qed.

Lemma size_list_to_set_remove_dups (l : list span) :
  size (list_to_set l : gset span) = length (remove_dups l).
Proof.
  rewrite <- (size_list_to_set (C := gset span) (remove_dups l))
    by apply NoDup_remove_dups.
  f_equal. apply list_to_set_same_members. intros x.
  rewrite <- !list_elem_of_In, elem_of_remove_dups. reflexivity.
Qed.

(** X10. The result of [Trainer._count_intersection] lies between 0 and
    the smaller of the number of reference spans and the number of
    predicted rows. *)
Theorem X10_count_intersection_bounded
  (true_spans predicted_spans : list span) :
  0 <= _count_intersection true_spans predicted_spans
    <= Z.of_nat (Nat.min (length true_spans) (length predicted_spans)).
Proof.
  pose proof (_count_intersection_bounds true_spans predicted_spans) as H1.
  assert (H2 : _count_intersection true_spans predicted_spans
               <= Z.of_nat (length predicted_spans)).
  { unfold _count_intersection. apply Nat2Z.inj_le.
    etransitivity; [| apply size_list_to_set_le].
    apply subseteq_size, intersection_subseteq_l. }
  lia.
Qed.

(** X11. [Trainer._count_intersection] sees its arguments as sets: lists
    with the same members, in any order and with any repetitions, give the
    same count. *)
Theorem X11_count_intersection_of_sets
  (true1 true2 predicted1 predicted2 : list span) :
  (forall x, In x true1 <-> In x true2) ->
  (forall x, In x predicted1 <-> In x predicted2) ->
  _count_intersection true1 predicted1 = _count_intersection true2 predicted2.
Proof.
  intros Ht Hp. unfold _count_intersection.
  rewrite (list_to_set_same_members true1 true2 Ht).
  rewrite (list_to_set_same_members predicted1 predicted2 Hp).
  reflexivity.
Qed.

Lemma X11_witness :
  _count_intersection [(0, 2); (3, 4); (0, 2)] [(5, 5); (3, 4); (3, 4)]
  = _count_intersection [(3, 4); (0, 2)] [(3, 4); (5, 5)].
Proof.
  apply (X11_count_intersection_of_sets
           [(0, 2); (3, 4); (0, 2)] [(3, 4); (0, 2)]
           [(5, 5); (3, 4); (3, 4)] [(3, 4); (5, 5)]).
  - intros x. cbn. tauto.
  - intros x. cbn. tauto.
Defined.

(** X12. [Trainer._count_intersection] reaches the number of distinct
    reference spans exactly when every reference span is among the
    predicted ones. *)
Theorem X12_count_intersection_full_recovery
  (true_spans predicted_spans : list span) :
  _count_intersection true_spans predicted_spans
    = Z.of_nat (length (remove_dups true_spans)) <->
  (forall r, In r true_spans -> In r predicted_spans).
Proof.
  unfold _count_intersection.
  rewrite <- size_list_to_set_remove_dups, Nat2Z.inj_iff.
  split.
  - intros Hsize r Hr.
    assert (Heq : (list_to_set predicted_spans ∩ list_to_set true_spans
                   : gset span) = list_to_set true_spans).
    { apply set_subseteq_size_eq; [apply intersection_subseteq_r | lia]. }
    apply list_elem_of_In in Hr.
    apply (elem_of_list_to_set (C := gset span)) in Hr.
    rewrite <- Heq in Hr. apply elem_of_intersection in Hr.
    destruct Hr as [Hr _]. apply elem_of_list_to_set in Hr.
    apply list_elem_of_In. exact Hr.
  - intros Hall. f_equal.
    rewrite (comm_L (∩)). apply subseteq_intersection_1_L.
    intros x Hx. apply elem_of_list_to_set in Hx.
    apply elem_of_list_to_set, list_elem_of_In, Hall, list_elem_of_In, Hx.
Qed.

Lemma X12_witness :
  _count_intersection [(3, 4); (0, 2); (3, 4)] [(0, 2); (3, 4); (5, 5)] = 2.
Proof.
  apply (proj2 (X12_count_intersection_full_recovery
                  [(3, 4); (0, 2); (3, 4)] [(0, 2); (3, 4); (5, 5)])).
  intros r Hr. cbn in *. tauto.
Defined.

Lemma foldM_app {A B : Type} (f : A -> B -> result A) (l1 l2 : list B) (acc : A) :
  foldM f acc (l1 ++ l2) = (acc' ← foldM f acc l1; foldM f acc' l2).
Proof.
  revert acc. induction l1 as [| x l1 IH]; intros acc; cbn [app foldM].
  - reflexivity.
  - destruct (f acc x) as [e | acc1]; cbn [mbind result_bind];
      [reflexivity | apply IH].
Qed.

(** X13. How the samples are grouped into batches does not matter to
    [Trainer.check_coverage_detected_spans]: the result, error included, is
    that of the single batch of all samples in order. *)
Theorem X13_coverage_batching_irrelevant
  (predict : list Z -> list Z -> ndarray2) (data : list (list Sample)) :
  check_coverage_detected_spans predict data
  = check_coverage_detected_spans predict [concat data].
Proof.
  unfold check_coverage_detected_spans, coverage_counters. f_equal.
  generalize (mk_counters 0 0 0).
  induction data as [| b data IH]; intros c; cbn [concat foldM].
  - reflexivity.
  - rewrite foldM_app.
    destruct (foldM (coverage_sample predict) c b) as [e | c1];
      cbn [mbind result_bind]; [reflexivity |].
    rewrite IH. cbn [foldM].
    destruct (foldM (coverage_sample predict) c1 (concat data));
      reflexivity.
Qed.

Lemma _count_intersection_recovered (true_spans predicted_spans : list span) :
  NoDup true_spans ->
  (forall r, In r true_spans -> In r predicted_spans) ->
  _count_intersection true_spans predicted_spans
  = Z.of_nat (length true_spans).
Proof.
  intros Hnd Hall. unfold _count_intersection. f_equal.
  rewrite <- (size_list_to_set (C := gset span) true_spans Hnd). f_equal.
  rewrite (comm_L (∩)). apply subseteq_intersection_1_L.
  intros x Hx. apply elem_of_list_to_set in Hx.
  apply elem_of_list_to_set, list_elem_of_In, Hall, list_elem_of_In, Hx.
Qed.

Lemma coverage_sample_recovered
  (predict : list Z -> list Z -> ndarray2) (sample : Sample) (c : counters) :
  recovered predict sample ->
  exists c',
    coverage_sample predict c sample = Return c' /\
    true_num c' - true_num c
      = num_correct_predicted c' - num_correct_predicted c.
Proof.
  intros (spans & Hspans & Hnd & Hall). unfold coverage_sample.
  rewrite Hspans. cbn [mbind result_bind].
  rewrite (_count_intersection_recovered _ _ Hnd Hall).
  eexists. split; [reflexivity |]. cbn. lia.
Qed.

Lemma coverage_batch_recovered
  (predict : list Z -> list Z -> ndarray2) (batch : list Sample) (c : counters) :
  Forall (recovered predict) batch ->
  exists c',
    foldM (coverage_sample predict) c batch = Return c' /\
    true_num c' - true_num c
      = num_correct_predicted c' - num_correct_predicted c.
Proof.
  intros H. revert c.
  induction H as [| s batch (spans & Hspans & Hnd & Hall) _ IH]; intros c.
  - exists c. split; [reflexivity | lia].
  - cbn [foldM].
    assert (Hs : recovered predict s) by (exists spans; tauto).
    destruct (coverage_sample_recovered predict s c Hs) as (c1 & -> & H1).
    cbn [mbind result_bind].
    destruct (IH c1) as (c' & Hc' & Hd).
    exists c'. split; [exact Hc' | lia].
Qed.

Lemma coverage_data_recovered
  (predict : list Z -> list Z -> ndarray2) (data : list (list Sample))
  (c : counters) :
  Forall (Forall (recovered predict)) data ->
  exists c',
    foldM (fun c batch => foldM (coverage_sample predict) c batch) c data
      = Return c' /\
    true_num c' - true_num c
      = num_correct_predicted c' - num_correct_predicted c.
Proof.
  intros H. revert c. induction H as [| b data Hb _ IH]; intros c.
  - exists c. split; [reflexivity | lia].
  - cbn [foldM].
    destruct (coverage_batch_recovered predict b c Hb) as (c1 & -> & H1).
    cbn [mbind result_bind].
    destruct (IH c1) as (c' & Hc' & Hd).
    exists c'. split; [exact Hc' | lia].
Qed.

(** X14. When the decoder finds every reference span of every sample, no
    sample lists a reference span twice and there is at least one
    reference span, [Trainer.check_coverage_detected_spans] returns a
    ratio equal to 1. *)
Theorem X14_full_recovery_ratio_one
  (predict : list Z -> list Z -> ndarray2) (data : list (list Sample)) :
  Forall (Forall (recovered predict)) data ->
  total_reference data <> 0 ->
  exists cov,
    check_coverage_detected_spans predict data = Return cov /\
    (ratio cov == 1)%Q.
Proof.
  intros Hrec Hne.
  destruct (coverage_data_recovered predict data (mk_counters 0 0 0) Hrec)
    as (c & Hc & Hd).
  fold (coverage_counters predict data) in Hc.
  pose proof (coverage_counters_counted predict data c Hc) as (Htn & _ & _).
  cbn in Hd.
  unfold check_coverage_detected_spans. rewrite Hc.
  cbn [mbind result_bind]. unfold py_truediv.
  replace (true_num c =? 0) with false
    by (symmetry; apply Z.eqb_neq; lia).
  cbn [mbind result_bind]. eexists. split; [reflexivity |].
  cbn [ratio]. replace (num_correct_predicted c) with (true_num c) by lia.
  apply Qmult_inv_r. unfold Qeq, inject_Z. cbn. lia.
Qed.

Lemma X14_witness :
  exists cov,
    check_coverage_detected_spans example_predict
      [[example_sample_exact]; [example_sample_exact]] = Return cov /\
    (ratio cov == 1)%Q.
Proof.
  apply (X14_full_recovery_ratio_one example_predict
           [[example_sample_exact]; [example_sample_exact]]).
  - assert (H : recovered example_predict example_sample_exact).
    { exists [(0, 2); (3, 4); (5, 5)].
      split; [vm_compute; reflexivity |]. split.
      - apply NoDup_ListNoDup. repeat constructor; cbn; intuition congruence.
      - intros r Hr. cbn in *. tauto. }
    repeat constructor; exact H.
  - vm_compute. discriminate.
Defined.

(** ** Further facts on [_model_out_for_metrics] *)

Lemma zip_with_pick_idem (fill : list float) (cond : list bool)
  (xs : list (list float)) :
  zip_with (fun (c : bool) r => if c then r else fill) cond
    (zip_with (fun (c : bool) r => if c then r else fill) cond xs)
  = zip_with (fun (c : bool) r => if c then r else fill) cond xs.
Proof.
  revert xs. induction cond as [| c cond IH]; intros [| x xs]; cbn;
    try reflexivity.
  rewrite IH. destruct c; reflexivity.
Qed.

Lemma zip_with_pick_const (fill r : list float) (cond : list bool) :
  zip_with (fun (c : bool) r => if c then r else fill) cond
    (map (fun c : bool => if c then r else fill) cond)
  = map (fun c : bool => if c then r else fill) cond.
Proof.
  induction cond as [| c cond IH]; cbn; [reflexivity |].
  rewrite IH. destruct c; reflexivity.
Qed.

Lemma torch_where_idem (cond : list bool) (x out : ndarray2) (y : list float) :
  torch_where cond x y = Return out ->
  torch_where cond out y = Return out.
Proof.
  unfold torch_where.
  destruct (length cond =? length (rows x))%nat eqn:E.
  - intros H. injection H as <-. cbn [rows shape1].
    apply Nat.eqb_eq in E.
    rewrite length_zip_with, <- E, Nat.min_id, Nat.eqb_refl.
    rewrite zip_with_pick_idem. reflexivity.
  - apply Nat.eqb_neq in E.
    destruct cond as [| c [| c' cond]].
    + destruct (rows x) as [| r [| r' xs]] eqn:Ex; intros H;
        try discriminate H; injection H as <-; reflexivity.
    + intros H. injection H as <-. cbn [rows shape1 length] in *.
      rewrite length_map.
      rewrite (proj2 (Nat.eqb_neq 1 (length (rows x))) E).
      rewrite map_map. f_equal. f_equal. apply map_ext.
      intros r. destruct c; reflexivity.
    + destruct (rows x) as [| r [| r' xs]] eqn:Ex; intros H;
        try discriminate H.
      injection H as <-. cbn [rows shape1].
      change ((if c then r else y) :: (if c' then r else y)
              :: map (fun c0 : bool => if c0 then r else y) cond)
        with (map (fun c0 : bool => if c0 then r else y) (c :: c' :: cond)).
      rewrite length_map, Nat.eqb_refl.
      rewrite (zip_with_pick_const y r (c :: c' :: cond)). reflexivity.
Qed.

(** X15. [Trainer._model_out_for_metrics] is idempotent: applying it to
    its own result, with the same batch, changes nothing. *)
Theorem X15_model_out_for_metrics_idempotent
  (model_out out : ndarray2) (batch : list Sample) :
  _model_out_for_metrics model_out batch = Return out ->
  _model_out_for_metrics out batch = Return out.
Proof.
  unfold _model_out_for_metrics. intros H.
  apply bind_Return in H. destruct H as (fill & Hfill & H).
  assert (Hshape : shape1 out = shape1 model_out).
  { unfold torch_where in H.
    destruct (length (map truthy (concat (map sub_words_mask batch)))
              =? length (rows model_out))%nat;
      [injection H as <-; reflexivity |].
    destruct (map truthy (concat (map sub_words_mask batch)))
      as [| c [| c' cs]];
      destruct (rows model_out) as [| r [| r' xs]];
      try discriminate H; injection H as <-; reflexivity. }
  rewrite Hshape, Hfill. cbn [mbind result_bind].
  apply torch_where_idem with (x := model_out). exact H.
Qed.

Lemma X15_witness :
  _model_out_for_metrics
    (mk_ndarray2 2 [[0.25; 0.75]; [1; 0]; [0.75; 0.25]]%float) example_batch
  = Return (mk_ndarray2 2 [[0.25; 0.75]; [1; 0]; [0.75; 0.25]]%float).
Proof.
  apply (X15_model_out_for_metrics_idempotent example_model_out _ example_batch).
  vm_compute. reflexivity.
Defined.

Lemma one_hot_column1 (n : nat) (fill : list float) :
  (2 <= n)%nat ->
  one_hot n int_ChunkCode_NOT_SPLIT = Return fill ->
  nth 1 fill 0%float = 0%float.
Proof.
  intros Hn. unfold one_hot, int_ChunkCode_NOT_SPLIT.
  change (0 <? 0) with false. cbn match.
  replace (Z.of_nat n <=? 0) with false by (symmetry; apply Z.leb_gt; lia).
  cbn [orb Z.to_nat]. intros H. injection H as <-.
  destruct n as [| [| n]]; [lia | lia | reflexivity].
Qed.

Lemma binarize_masked_rows (fill : list float) (m : list Z)
  (xs : list (list float)) :
  nth 1 fill 0%float = 0%float ->
  binarize (map (fun r => nth 1 r 0%float)
              (zip_with (fun (c : bool) r => if c then r else fill)
                 (map truthy m) xs))
  = zip_with (fun c v => if truthy c then v else int_ChunkCode_NOT_SPLIT) m
      (binarize (map (fun r => nth 1 r 0%float) xs)).
Proof.
  intros Hfill. unfold binarize.
  revert xs. induction m as [| c m IH]; intros [| x xs]; cbn;
    try reflexivity.
  rewrite IH. destruct (truthy c); [reflexivity |].
  rewrite Hfill. reflexivity.
Qed.

(** X16. The two places that force continuation sub-tokens to not-split
    agree: for a model output with at least two classes and one mask entry
    per row, binarizing the split column of what
    [Trainer._model_out_for_metrics] returns gives the binarized split
    column of the model output masked as in [Trainer._get_predicted_spans]. *)
Theorem X16_metrics_masking_matches_decoder
  (model_out : ndarray2) (batch : list Sample) :
  (2 <= shape1 model_out)%nat ->
  length (concat (map sub_words_mask batch)) = length (rows model_out) ->
  exists (out : ndarray2) (col col' : list float),
    _model_out_for_metrics model_out batch = Return out /\
    column1 model_out = Return col /\
    column1 out = Return col' /\
    np_where (concat (map sub_words_mask batch)) (binarize col)
      int_ChunkCode_NOT_SPLIT
    = Return (binarize col').
Proof.
  intros HC Hlen.
  destruct (one_hot_not_split (shape1 model_out)) as (fill & Hfill & _);
    [lia |].
  assert (Hlt : (shape1 model_out <? 2)%nat = false)
    by (apply Nat.ltb_ge; exact HC).
  exists (mk_ndarray2 (shape1 model_out)
            (zip_with (fun (c : bool) r => if c then r else fill)
               (map truthy (concat (map sub_words_mask batch)))
               (rows model_out))),
    (map (fun r => nth 1 r 0%float) (rows model_out)),
    (map (fun r => nth 1 r 0%float)
       (zip_with (fun (c : bool) r => if c then r else fill)
          (map truthy (concat (map sub_words_mask batch)))
          (rows model_out))).
  split; [| split; [| split]].
  - unfold _model_out_for_metrics. rewrite Hfill.
    cbn [mbind result_bind]. unfold torch_where.
    rewrite length_map, Hlen, Nat.eqb_refl. reflexivity.
  - unfold column1. rewrite Hlt. reflexivity.
  - unfold column1. cbn [shape1 rows]. rewrite Hlt. reflexivity.
  - rewrite np_where_same_length
      by (unfold binarize; rewrite !length_map; exact Hlen).
    f_equal. symmetry. apply binarize_masked_rows.
    apply (one_hot_column1 (shape1 model_out)); assumption.
Qed.

Lemma X16_witness :
  exists (out : ndarray2) (col col' : list float),
    _model_out_for_metrics example_model_out example_batch = Return out /\
    column1 example_model_out = Return col /\
    column1 out = Return col' /\
    np_where [1; 0; 1] (binarize col) int_ChunkCode_NOT_SPLIT
    = Return (binarize col').
Proof.
  apply (X16_metrics_masking_matches_decoder example_model_out example_batch).
  - cbn. lia.
  - reflexivity.
Defined.

(** X17. [Trainer._model_out_for_metrics] raises IndexError for a model
    output without class column, and RuntimeError when, with at least one
    class, the number of mask entries and the number of rows differ and
    neither is one. *)
Theorem X17_model_out_for_metrics_errors
  (model_out : ndarray2) (batch : list Sample) :
  (shape1 model_out = 0%nat ->
   _model_out_for_metrics model_out batch = Raise IndexError) /\
  ((1 <= shape1 model_out)%nat ->
   length (concat (map sub_words_mask batch)) <> length (rows model_out) ->
   length (concat (map sub_words_mask batch)) <> 1%nat ->
   length (rows model_out) <> 1%nat ->
   _model_out_for_metrics model_out batch = Raise RuntimeError).
Proof.
  unfold _model_out_for_metrics. split.
  - intros ->. reflexivity.
  - intros HC Hne Hm Hr.
    destruct (one_hot_not_split (shape1 model_out) HC) as (fill & -> & _).
    cbn [mbind result_bind]. unfold torch_where.
    rewrite length_map, (proj2 (Nat.eqb_neq _ _) Hne).
    rewrite <- (length_map truthy) in Hm.
    destruct (map truthy (concat (map sub_words_mask batch)))
      as [| c [| c' cs]];
      destruct (rows model_out) as [| r [| r' xs]];
      cbn [length] in Hm, Hr; try reflexivity; congruence.
Qed.

Lemma X17_witness :
  _model_out_for_metrics example_model_out_no_class example_batch
    = Raise IndexError /\
  _model_out_for_metrics example_model_out_two_rows example_batch
    = Raise RuntimeError.
Proof.
  split.
  - apply (proj1 (X17_model_out_for_metrics_errors
                    example_model_out_no_class example_batch)).
    reflexivity.
  - apply (proj2 (X17_model_out_for_metrics_errors
                    example_model_out_two_rows example_batch)).
    + cbn. lia.
    + cbn. lia.
    + cbn. lia.
    + cbn. lia.
Defined.

(** ** Facts on the comparison of floats *)

Lemma SFcompare_Lt_swap (x y : spec_float) :
  SFcompare x y = Some Lt -> SFcompare y x = Some Gt.
Proof.
  destruct x as [sx | sx | | sx mx ex], y as [sy | sy | | sy my ey]; cbn;
    try discriminate; try (destruct sx; discriminate);
    try (destruct sy; discriminate);
    try (destruct sx, sy; (discriminate || reflexivity)).
  rewrite (Z.compare_antisym ex ey).
  change (Pos.compare_cont Eq my mx) with (Pos.compare my mx).
  change (Pos.compare_cont Eq mx my) with (Pos.compare mx my).
  rewrite (Pos.compare_antisym mx my).
  destruct sx, sy; try discriminate; try reflexivity;
    destruct (ex ?= ey); cbn; try discriminate; try reflexivity;
    destruct (mx ?= my)%positive; cbn; (discriminate || reflexivity).
Qed.

Lemma SFcompare_refl (x : spec_float) :
  x <> S754_nan -> SFcompare x x = Some Eq.
Proof.
  destruct x as [s | s | | s m e]; cbn; intros H;
    try reflexivity; try congruence.
  - destruct s; reflexivity.
  - rewrite Z.compare_refl.
    change (Pos.compare_cont Eq m m) with (Pos.compare m m).
    rewrite Pos.compare_refl. destruct s; reflexivity.
Qed.

Lemma SFcompare_Some_not_nan (x y : spec_float) (c : comparison) :
  SFcompare x y = Some c -> x <> S754_nan /\ y <> S754_nan.
Proof.
  destruct x, y; cbn; intros H; try discriminate H; split; discriminate.
Qed.

Lemma ltb_SFcompare (a b : float) :
  (a <? b)%float = true -> SFcompare (Prim2SF a) (Prim2SF b) = Some Lt.
Proof.
  rewrite FloatAxioms.ltb_spec. unfold SFltb.
  destruct (SFcompare (Prim2SF a) (Prim2SF b)) as [[| |] |];
    (discriminate || reflexivity).
Qed.

Lemma ltb_neq (a b : float) :
  (a <? b)%float = true -> (b =? a)%float = false.
Proof.
  intros H. apply ltb_SFcompare, SFcompare_Lt_swap in H.
  rewrite FloatAxioms.eqb_spec. unfold SFeqb. rewrite H. reflexivity.
Qed.

Lemma ltb_not_nan (a b : float) :
  (a <? b)%float = true -> not_nan a /\ not_nan b.
Proof.
  intros H. apply ltb_SFcompare, SFcompare_Some_not_nan in H.
  destruct H as [Ha Hb]. unfold not_nan.
  rewrite !FloatAxioms.eqb_spec. unfold SFeqb.
  rewrite (SFcompare_refl _ Ha), (SFcompare_refl _ Hb). split; reflexivity.
Qed.

Lemma ltb_leb (a b : float) :
  (a <? b)%float = true -> (a <=? b)%float = true.
Proof.
  intros H. apply ltb_SFcompare in H.
  rewrite FloatAxioms.leb_spec. unfold SFleb. rewrite H. reflexivity.
Qed.

Lemma not_nan_leb_refl (a : float) : not_nan a -> (a <=? a)%float = true.
Proof.
  unfold not_nan. rewrite FloatAxioms.eqb_spec, FloatAxioms.leb_spec. unfold SFeqb, SFleb.
  destruct (SFcompare (Prim2SF a) (Prim2SF a)) as [[| |] |];
    (discriminate || reflexivity).
Qed.

Lemma nan_ltb (a b : float) :
  (a =? a)%float = false -> (a <? b)%float = false /\ (b <? a)%float = false.
Proof.
  intros H. split.
  - destruct (a <? b)%float eqn:E; [| reflexivity].
    apply ltb_not_nan in E. destruct E as [E _]. unfold not_nan in E. congruence.
  - destruct (b <? a)%float eqn:E; [| reflexivity].
    apply ltb_not_nan in E. destruct E as [_ E]. unfold not_nan in E. congruence.
Qed.

(** [value] is strictly better than [best] for the selector. *)
Lemma py_select_better (f : selector) (best value : float) :
  not_nan best ->
  negb (py_select f best value =? best)%float
  = match f with
    | py_min => (value <? best)%float
    | py_max => (best <? value)%float
    end.
Proof.
  intros Hb. unfold py_select.
  destruct f.
  - destruct (value <? best)%float eqn:E.
    + pose proof (ltb_SFcompare _ _ E) as Hc.
      rewrite FloatAxioms.eqb_spec. unfold SFeqb. rewrite Hc. reflexivity.
    + unfold not_nan in Hb. rewrite Hb. reflexivity.
  - destruct (best <? value)%float eqn:E.
    + rewrite (ltb_neq _ _ E). reflexivity.
    + unfold not_nan in Hb. rewrite Hb. reflexivity.
Qed.

(** ** Facts on [Memory] *)

(** What [update] does on an object that has an objective found in the
    dictionary, a selector and a best value that is not NaN. *)
Lemma update_set_up (m : Memory) (epoch : Z) (values_dict : gmap string float)
  (key : string) (value : float) (f : selector) (best : float) :
  early_stopping_objective m = Some key ->
  values_dict !! key = Some value ->
  func m = Some f ->
  best_value m = Some best ->
  not_nan best ->
  update m epoch values_dict
  = inr (if strictly_better f best value
         then mk_Memory epoch (opt_direction m) (func m) (Some value)
                (patience m) (early_stopping_objective m)
         else m,
         strictly_better f best value).
Proof.
  intros Hkey Hval Hf Hbest Hnan. unfold update.
  rewrite Hkey, Hval, Hf, Hbest.
  rewrite (py_select_better f best value Hnan).
  unfold strictly_better. destruct f;
    [destruct (value <? best)%float | destruct (best <? value)%float];
    reflexivity.
Qed.

(** X18. On a memory with a selector, a best value that is not NaN and an
    objective present in the dictionary, [Memory.update] reports an
    improvement exactly when the new value is strictly better than the
    best one (smaller for 'min', greater for 'max'); it then records the
    epoch and the value and keeps the selector, the patience, the
    objective and the direction, and otherwise leaves the memory as it
    is. *)
Theorem X18_update_improves_iff_strictly_better
  (m : Memory) (epoch : Z) (values_dict : gmap string float)
  (key : string) (value : float) (f : selector) (best : float) :
  early_stopping_objective m = Some key ->
  values_dict !! key = Some value ->
  func m = Some f ->
  best_value m = Some best ->
  not_nan best ->
  exists (m' : Memory) (improvement : bool),
    update m epoch values_dict = inr (m', improvement) /\
    improvement = strictly_better f best value /\
    (improvement = true ->
     best_epoch m' = epoch /\ best_value m' = Some value /\
     func m' = func m /\ patience m' = patience m /\
     early_stopping_objective m' = early_stopping_objective m /\
     opt_direction m' = opt_direction m) /\
    (improvement = false -> m' = m).
Proof.
  intros Hkey Hval Hf Hbest Hnan.
  rewrite (update_set_up m epoch values_dict key value f best
             Hkey Hval Hf Hbest Hnan).
  eexists. eexists. split; [reflexivity |]. split; [reflexivity |].
  destruct (strictly_better f best value); split; intros H;
    try discriminate H; try reflexivity.
  cbn. repeat split; reflexivity.
Qed.

Lemma X18_witness :
  exists (m' : Memory) (improvement : bool),
    update example_memory 3 (example_test 0) = inr (m', improvement) /\
    improvement = strictly_better py_max neg_infinity 0.5 /\
    (improvement = true ->
     best_epoch m' = 3 /\ best_value m' = Some 0.5%float /\
     func m' = func example_memory /\ patience m' = patience example_memory /\
     early_stopping_objective m'
       = early_stopping_objective example_memory /\
     opt_direction m' = opt_direction example_memory) /\
    (improvement = false -> m' = example_memory).
Proof.
  apply (X18_update_improves_iff_strictly_better example_memory 3
           (example_test 0) "Precision" 0.5 py_max neg_infinity);
    reflexivity.
Defined.

(** X19. [Memory.update] never records NaN: if the best value is not NaN
    before the call it is not NaN after it, and a NaN value is never an
    improvement. *)
Theorem X19_update_keeps_nan_out
  (m : Memory) (epoch : Z) (values_dict : gmap string float)
  (key : string) (value : float) (f : selector) (best : float) :
  early_stopping_objective m = Some key ->
  values_dict !! key = Some value ->
  func m = Some f ->
  best_value m = Some best ->
  not_nan best ->
  exists (m' : Memory) (improvement : bool) (best' : float),
    update m epoch values_dict = inr (m', improvement) /\
    best_value m' = Some best' /\ not_nan best' /\
    ((value =? value)%float = false -> improvement = false /\ m' = m).
Proof.
  intros Hkey Hval Hf Hbest Hnan.
  rewrite (update_set_up m epoch values_dict key value f best
             Hkey Hval Hf Hbest Hnan).
  destruct (strictly_better f best value) eqn:E.
  - assert (Hv : not_nan value).
    { unfold strictly_better in E. destruct f;
        apply ltb_not_nan in E; tauto. }
    eexists. eexists. exists value. split; [reflexivity |].
    split; [reflexivity |]. split; [exact Hv |].
    unfold not_nan in Hv. intros H. congruence.
  - eexists. eexists. exists best. split; [reflexivity |].
    split; [exact Hbest |]. split; [exact Hnan |].
    intros _. split; reflexivity.
Qed.

Lemma X19_witness :
  exists (m' : Memory) (improvement : bool) (best' : float),
    update example_memory 0 {[ "Precision" := nan ]} = inr (m', improvement) /\
    best_value m' = Some best' /\ not_nan best' /\
    ((nan =? nan)%float = false -> improvement = false /\ m' = example_memory).
Proof.
  apply (X19_update_keeps_nan_out example_memory 0 {[ "Precision" := nan ]}
           "Precision" nan py_max neg_infinity);
    reflexivity.
Defined.

(** X20. [Memory.update] never makes the best value worse: for 'max' the
    best value after the call is greater than or equal to the one before,
    for 'min' it is smaller than or equal to it. *)
Theorem X20_update_best_value_monotone
  (m : Memory) (epoch : Z) (values_dict : gmap string float)
  (key : string) (value : float) (f : selector) (best : float) :
  early_stopping_objective m = Some key ->
  values_dict !! key = Some value ->
  func m = Some f ->
  best_value m = Some best ->
  not_nan best ->
  exists (m' : Memory) (improvement : bool) (best' : float),
    update m epoch values_dict = inr (m', improvement) /\
    best_value m' = Some best' /\
    at_least_as_good f best best' = true.
Proof.
  intros Hkey Hval Hf Hbest Hnan.
  rewrite (update_set_up m epoch values_dict key value f best
             Hkey Hval Hf Hbest Hnan).
  destruct (strictly_better f best value) eqn:E.
  - eexists. eexists. exists value. split; [reflexivity |].
    split; [reflexivity |].
    unfold strictly_better in E. unfold at_least_as_good.
    destruct f; apply ltb_leb; exact E.
  - eexists. eexists. exists best. split; [reflexivity |].
    split; [exact Hbest |].
    unfold at_least_as_good. destruct f; apply not_nan_leb_refl; exact Hnan.
Qed.

Lemma X20_witness :
  exists (m' : Memory) (improvement : bool) (best' : float),
    update example_memory 1 (example_test 1) = inr (m', improvement) /\
    best_value m' = Some best' /\
    at_least_as_good py_max neg_infinity best' = true.
Proof.
  apply (X20_update_best_value_monotone example_memory 1 (example_test 1)
           "Precision" 0.75 py_max neg_infinity);
    reflexivity.
Defined.

Lemma Memory_init_fields (config : Config) (dir : string) (m : Memory) :
  Memory_init config dir = inr m ->
  patience m = early_stopping config /\
  best_epoch m = 0 /\
  (early_stopping config = None -> early_stopping_objective m = None) /\
  (dir <> "min" -> dir <> "max" -> func m = None).
Proof.
  unfold Memory_init. intros H.
  assert (Hdir : dir <> "min" -> dir <> "max" ->
                 (if String.eqb dir "min" then (Some py_min, Some infinity)
                  else if String.eqb dir "max"
                       then (Some py_max, Some neg_infinity)
                       else (None, None))
                 = (None, None)).
  { intros H1 H2. apply String.eqb_neq in H1, H2. rewrite H1, H2. reflexivity. }
  destruct (if String.eqb dir "min" then (Some py_min, Some infinity)
            else if String.eqb dir "max"
                 then (Some py_max, Some neg_infinity)
                 else (None, None)) as [fn bv].
  destruct (early_stopping config) as [p |].
  - destruct (early_stopping_objective_cfg config) as [o |];
      [| discriminate H].
    injection H as <-. cbn. repeat split; try discriminate.
    intros H1 H2. specialize (Hdir H1 H2). congruence.
  - injection H as <-. cbn. repeat split.
    intros H1 H2. specialize (Hdir H1 H2). congruence.
Qed.

(** X21. A memory created without early stopping in the configuration
    has no objective, so every call of [Memory.update] on it raises
    KeyError; and a memory created with a direction other than 'min' and
    'max' has no selector, so [Memory.update] never returns on it: it
    raises KeyError or AttributeError. *)
Theorem X21_update_raises_without_objective_or_selector
  (config : Config) (dir : string) (m : Memory) :
  Memory_init config dir = inr m ->
  (early_stopping config = None ->
   forall epoch values_dict, update m epoch values_dict = inl KeyError) /\
  (dir <> "min" -> dir <> "max" ->
   forall epoch values_dict,
     update m epoch values_dict = inl KeyError \/
     update m epoch values_dict = inl AttributeError).
Proof.
  intros H. apply Memory_init_fields in H.
  destruct H as (_ & _ & Hobj & Hfunc). split.
  - intros Hnone epoch values_dict. unfold update.
    rewrite (Hobj Hnone). reflexivity.
  - intros H1 H2 epoch values_dict. unfold update.
    rewrite (Hfunc H1 H2).
    destruct (early_stopping_objective m) as [key |]; [| left; reflexivity].
    destruct (values_dict !! key); [right | left]; reflexivity.
Qed.

Lemma X21_witness :
  (forall epoch values_dict,
     update (mk_Memory 0 "max" (Some py_max) (Some neg_infinity) None None)
       epoch values_dict = inl KeyError) /\
  (forall epoch values_dict,
     update (mk_Memory 0 "best" None None (Some 1) (Some "Precision"))
       epoch values_dict = inl KeyError \/
     update (mk_Memory 0 "best" None None (Some 1) (Some "Precision"))
       epoch values_dict = inl AttributeError).
Proof.
  split.
  - apply (proj1 (X21_update_raises_without_objective_or_selector
                    example_config_no_stopping "max" _ eq_refl)).
    reflexivity.
  - apply (proj2 (X21_update_raises_without_objective_or_selector
                    example_config "best" _ eq_refl));
      discriminate.
Defined.

Lemma ascii_lower_not_upper (c : Ascii.ascii) :
  ascii_is_upper (ascii_lower c) = false.
Proof.
  destruct c as [[] [] [] [] [] [] [] []]; vm_compute; reflexivity.
Qed.

Lemma str_lower_no_upper (s : string) : no_upper (str_lower s) = true.
Proof.
  induction s as [| c s IH]; cbn [str_lower no_upper]; [reflexivity |].
  rewrite ascii_lower_not_upper, IH. reflexivity.
Qed.

Lemma py_in_Loss_upper (s : string) :
  py_in "Loss" s = true -> no_upper s = false.
Proof.
  induction s as [| c s IH]; cbn [py_in no_upper].
  - cbn. discriminate.
  - intros H. apply orb_true_iff in H. destruct H as [H | H].
    + cbn [String.prefix] in H.
      destruct (Ascii.ascii_dec
                  (Ascii.Ascii false false true true false false true false) c)
        as [<- |]; [reflexivity | discriminate H].
    + rewrite (IH H). apply andb_false_r.
Qed.

Lemma py_in_Loss_capitalize (s : string) :
  py_in "Loss" (capitalize s) = String.prefix "Loss" (capitalize s).
Proof.
  destruct s as [| c s]; [reflexivity |].
  cbn [capitalize py_in].
  destruct (py_in "Loss" (str_lower s)) eqn:E; [| apply orb_false_r].
  apply py_in_Loss_upper in E. rewrite str_lower_no_upper in E. discriminate E.
Qed.

(** X22. The objective [Memory.__init__] stores for an (ASCII)
    configuration value is its capitalized form, replaced by 'Test_loss'
    exactly when the capitalized form starts with 'Loss': the test
    ['Loss' in ...] cannot succeed further inside, because capitalizing
    lowers every later letter.  So no stored objective has an upper-case
    letter after its first character, and none equals 'F1Score' or
    'FBetaScore'. *)
Theorem X22_objective_capitalized
  (config : Config) (dir : string) (m : Memory) (p : Z) (o : string) :
  early_stopping config = Some p ->
  early_stopping_objective_cfg config = Some o ->
  ascii_only o = true ->
  Memory_init config dir = inr m ->
  exists key,
    early_stopping_objective m = Some key /\
    key = (if String.prefix "Loss" (capitalize o) then "Test_loss"
           else capitalize o) /\
    no_upper (str_tail key) = true /\
    key <> "F1Score" /\ key <> "FBetaScore".
Proof.
  intros Hp Ho _ H. unfold Memory_init in H. rewrite Hp, Ho in H.
  destruct (if String.eqb dir "min" then (Some py_min, Some infinity)
            else if String.eqb dir "max"
                 then (Some py_max, Some neg_infinity)
                 else (None, None)) as [fn bv].
  injection H as <-. cbn [early_stopping_objective].
  rewrite py_in_Loss_capitalize.
  eexists. split; [reflexivity |]. split; [reflexivity |].
  assert (Htail : no_upper
                    (str_tail (if String.prefix "Loss" (capitalize o)
                               then "Test_loss" else capitalize o)) = true).
  { destruct (String.prefix "Loss" (capitalize o)); [reflexivity |].
    destruct o as [| c o]; [reflexivity |]. cbn [capitalize str_tail].
    apply str_lower_no_upper. }
  split; [exact Htail |].
  split; intros Heq; rewrite Heq in Htail; discriminate Htail.
Qed.

Lemma X22_witness :
  exists key,
    early_stopping_objective
      (mk_Memory 0 "max" (Some py_max) (Some neg_infinity) (Some 2)
         (Some "F1score")) = Some key /\
    key = (if String.prefix "Loss" (capitalize "f1Score") then "Test_loss"
           else capitalize "f1Score") /\
    no_upper (str_tail key) = true /\
    key <> "F1Score" /\ key <> "FBetaScore".
Proof.
  apply (X22_objective_capitalized
           (mk_Config (Some 2) (Some "f1Score") 3) "max" _ 2 "f1Score");
    reflexivity.
Defined.

(** ** Facts on [Trainer.train] *)

Lemma update_inr (m m' : Memory) (epoch : Z) (values_dict : gmap string float)
  (improvement : bool) :
  update m epoch values_dict = inr (m', improvement) ->
  patience m' = patience m /\
  (improvement = true -> best_epoch m' = epoch) /\
  (improvement = false -> m' = m).
Proof.
  unfold update.
  destruct (early_stopping_objective m) as [key |]; [| discriminate].
  destruct (values_dict !! key) as [value |]; [| discriminate].
  destruct (func m) as [f |]; [| discriminate].
  destruct (best_value m) as [best |]; [| discriminate].
  destruct (negb (py_select f best value =? best)%float);
    intros H; injection H as <- <-; cbn;
    repeat split; (reflexivity || discriminate).
Qed.

Lemma _eval_inr (m m' : Memory) (epoch : Z) (dev_data : option dev_run)
  (saved stop : bool) :
  _eval m epoch dev_data = inr (m', saved, stop) ->
  (dev_data = None /\ m' = m /\ saved = false /\ stop = false) \/
  (exists dev values_dict,
     dev_data = Some dev /\
     test dev epoch = Return values_dict /\
     update m epoch values_dict = inr (m', saved) /\
     stop = early_stopping_reached m' epoch).
Proof.
  unfold _eval. destruct dev_data as [dev |].
  - destruct (test dev epoch) as [e | values_dict] eqn:Ht; [discriminate |].
    destruct (update m epoch values_dict) as [e | [m1 imp]] eqn:Hup;
      [discriminate |].
    intros H. injection H as <- <- <-. right.
    exists dev, values_dict. repeat split; assumption.
  - intros H. injection H as <- <- <-. left. repeat split; reflexivity.
Qed.




(** The loop with development data, started at epoch [e] with a memory
    whose best epoch is at most [p + 1] epochs back: it trains at most the
    remaining epochs, and wherever it stops by early stopping the epoch
    trained last is exactly [p + 1] epochs after the best one. *)
Lemma train_epochs_stop (train_batches : nat) (dev : dev_run) (p : Z)
  (n : nat) :
  0 <= p ->
  forall (e : nat) (st st' : train_state),
    epochs_trained st = e ->
    patience (memory st) = Some p ->
    Z.of_nat e - 1 - best_epoch (memory st) <= p ->
    train_epochs train_batches (Some dev) (map Z.of_nat (seq e n)) st
      = inr st' ->
    (epochs_trained st' <= e + n)%nat /\
    ((epochs_trained st' < e + n)%nat ->
     Z.of_nat (epochs_trained st') - 1 - best_epoch (memory st') = p + 1).
Proof.
  intros Hp. induction n as [| n IH]; intros e st st' He Hpat Hinv Hrun.
  - cbn in Hrun. injection Hrun as <-. split; lia.
  - cbn [seq map train_epochs] in Hrun.
    destruct (_training_epoch train_batches) as [err | []];
      [discriminate Hrun |].
    destruct (_eval (memory st) (Z.of_nat e) (Some dev))
      as [err | [[m' saved] stop]] eqn:Hev; [discriminate Hrun |].
    apply _eval_inr in Hev.
    destruct Hev as [(Hnone & _) | (d & values_dict & _ & _ & Hup & ->)];
      [discriminate Hnone |].
    apply update_inr in Hup. destruct Hup as (Hpat' & Himp & Hsame).
    unfold early_stopping_reached in Hrun. rewrite Hpat', Hpat in Hrun.
    assert (Hbest : best_epoch m' = Z.of_nat e \/ m' = memory st).
    { destruct saved; [left | right]; auto. }
    destruct (p <? Z.of_nat e - best_epoch m') eqn:Hstop.
    + injection Hrun as <-. cbn [epochs_trained memory].
      apply Z.ltb_lt in Hstop. split; [lia |]. intros _.
      destruct Hbest as [Hb | ->]; lia.
    + apply Z.ltb_ge in Hstop.
      apply IH in Hrun; cbn [epochs_trained memory];
        [| lia | congruence | lia].
      destruct Hrun as [H1 H2]. split; [lia |]. intros H. apply H2. lia.
Qed.

(** X24. With development data and a patience p >= 0, [Trainer.train]
    trains at most the configured number of epochs, and when it stops
    before that, the last epoch trained lies exactly p + 1 epochs after
    the best epoch of the memory. *)
Theorem X24_train_stops_patience_after_best
  (config : Config) (m : Memory) (train_batches : nat) (dev : dev_run)
  (p : Z) (st : train_state) :
  patience m = Some p ->
  0 <= p ->
  best_epoch m = 0 ->
  train config m train_batches (Some dev) = inr st ->
  (epochs_trained st <= Z.to_nat (epochs config))%nat /\
  ((epochs_trained st < Z.to_nat (epochs config))%nat ->
   Z.of_nat (epochs_trained st) - 1 - best_epoch (memory st) = p + 1).
Proof.
  intros Hpat Hp Hbest Hrun. unfold train, py_range in Hrun.
  assert (Hinv : Z.of_nat 0 - 1 - best_epoch m <= p)
    by (rewrite Hbest; cbn; lia).
  exact (train_epochs_stop train_batches dev p (Z.to_nat (epochs config))
           Hp 0%nat (mk_train_state m [] 0) st eq_refl Hpat Hinv Hrun).
Qed.

Lemma X24_witness :
  (4 <= Z.to_nat (epochs example_config))%nat /\
  ((4 < Z.to_nat (epochs example_config))%nat ->
   Z.of_nat 4 - 1 - 1 = 1 + 1).
Proof.
  apply (X24_train_stops_patience_after_best example_config example_memory
           3 example_dev 1
           (mk_train_state
              (mk_Memory 1 "max" (Some py_max) (Some 0.75%float) (Some 1)
                 (Some "Precision"))
              [0; 1] 4)).
  - reflexivity.
  - lia.
  - reflexivity.
  - vm_compute. reflexivity.
Defined.

Lemma train_epochs_saved (train_batches : nat) (dev_data : option dev_run)
  (remaining : list Z) :
  forall (st0 st st' : train_state),
    (saved_epochs st = saved_epochs st0 /\ memory st = memory st0) \/
    last (saved_epochs st) = Some (best_epoch (memory st)) ->
    train_epochs train_batches dev_data remaining st = inr st' ->
    (saved_epochs st' = saved_epochs st0 /\ memory st' = memory st0) \/
    last (saved_epochs st') = Some (best_epoch (memory st')).
Proof.
  induction remaining as [| e remaining IH]; intros st0 st st' Hinv Hrun.
  - cbn in Hrun. injection Hrun as <-. exact Hinv.
  - cbn [train_epochs] in Hrun.
    destruct (_training_epoch train_batches) as [err | []];
      [discriminate Hrun |].
    destruct (_eval (memory st) e dev_data)
      as [err | [[m' saved] stop]] eqn:Hev; [discriminate Hrun |].
    assert (Hstep : (saved = true -> best_epoch m' = e) /\
                    (saved = false -> m' = memory st)).
    { apply _eval_inr in Hev.
      destruct Hev as [(_ & -> & -> & _) | (d & values_dict & _ & _ & Hup & _)].
      - split; [discriminate | reflexivity].
      - apply update_inr in Hup. tauto. }
    destruct Hstep as [Hs1 Hs2].
    assert (Hinv' :
      (saved_epochs
         (mk_train_state m'
            (if saved then saved_epochs st ++ [e] else saved_epochs st)
            (S (epochs_trained st))) = saved_epochs st0 /\
       memory
         (mk_train_state m'
            (if saved then saved_epochs st ++ [e] else saved_epochs st)
            (S (epochs_trained st))) = memory st0) \/
      last (saved_epochs
              (mk_train_state m'
                 (if saved then saved_epochs st ++ [e] else saved_epochs st)
                 (S (epochs_trained st))))
      = Some (best_epoch
                (memory
                   (mk_train_state m'
                      (if saved then saved_epochs st ++ [e]
                       else saved_epochs st)
                      (S (epochs_trained st)))))).
    { cbn [saved_epochs memory]. destruct saved.
      - right. rewrite last_snoc, (Hs1 eq_refl). reflexivity.
      - rewrite (Hs2 eq_refl). exact Hinv. }
    destruct stop.
    + injection Hrun as <-. exact Hinv'.
    + exact (IH st0 _ st' Hinv' Hrun).
Qed.

(** X25. When [Trainer.train] returns, the model saved last is the one of
    the best epoch recorded in the memory; if no model was saved, the
    memory is the one training started with. *)
Theorem X25_train_saved_model_is_best_epoch
  (config : Config) (m : Memory) (train_batches : nat)
  (dev_data : option dev_run) (st : train_state) :
  train config m train_batches dev_data = inr st ->
  (saved_epochs st = [] /\ memory st = m) \/
  last (saved_epochs st) = Some (best_epoch (memory st)).
Proof.
  intros Hrun. unfold train in Hrun.
  apply (train_epochs_saved train_batches dev_data (py_range (epochs config))
           (mk_train_state m [] 0) (mk_train_state m [] 0) st);
    [left; split; reflexivity | exact Hrun].
Qed.

Lemma X25_witness :
  ([0; 1] = [] /\
   mk_Memory 1 "max" (Some py_max) (Some 0.75%float) (Some 1)
     (Some "Precision") = example_memory) \/
  last [0; 1] = Some 1.
Proof.
  apply (X25_train_saved_model_is_best_epoch example_config example_memory
           3 (Some example_dev)
           (mk_train_state
              (mk_Memory 1 "max" (Some py_max) (Some 0.75%float) (Some 1)
                 (Some "Precision"))
              [0; 1] 4)).
  vm_compute. reflexivity.
Defined.





(** ** Facts on the result directory *)

Section SavePathFacts.

Context {char : Type} `{EqDecision char}.
Variable sep : char.

Lemma rfind_lower (s : list char) : -1 <= rfind sep s.
Proof.
  induction s as [| c s IH]; cbn [rfind]; [lia |].
  destruct (rfind sep s <? 0) eqn:E.
  - destruct (decide (c = sep)); lia.
  - apply Z.ltb_ge in E. lia.
Qed.

Lemma rfind_absent (s : list char) : ~ In sep s -> rfind sep s = -1.
Proof.
  induction s as [| c s IH]; cbn [rfind In]; intros Hn; [reflexivity |].
  rewrite IH by tauto. cbn.
  destruct (decide (c = sep)); [tauto | reflexivity].
Qed.

Lemma rfind_split (s : list char) :
  In sep s ->
  exists file,
    0 <= rfind sep s /\
    s = take (Z.to_nat (rfind sep s)) s ++ sep :: file /\ ~ In sep file.
Proof.
  induction s as [| c s IH]; cbn [rfind In]; [intros [] |].
  intros Hin. destruct (rfind sep s <? 0) eqn:E.
  - apply Z.ltb_lt in E.
    assert (Hs : ~ In sep s).
    { intros Hs. destruct (IH Hs) as (f & H0 & _). lia. }
    destruct (decide (c = sep)) as [-> | Hne]; [| tauto].
    exists s. split; [lia |]. split; [reflexivity | exact Hs].
  - apply Z.ltb_ge in E.
    assert (Hs : In sep s).
    { destruct (in_dec (fun a b => decide (a = b)) sep s) as [Hs | Hs];
        [exact Hs |].
      apply rfind_absent in Hs. lia. }
    destruct (IH Hs) as (f & H0 & Heq & Hf).
    exists f. split; [lia |]. split; [| exact Hf].
    replace (Z.to_nat (rfind sep s + 1)) with (S (Z.to_nat (rfind sep s)))
      by lia.
    cbn [take app]. f_equal. exact Heq.
Qed.

(** X27. The directory [Trainer.train] creates is the part of the save
    path before its last separator; the rest is a file name without
    separator.  For a save path without any separator it is the save path
    without its last character. *)
Theorem X27_save_dir_splits_path (save_path : list char) :
  (In sep save_path ->
   exists file,
     save_path = save_dir sep save_path ++ sep :: file /\ ~ In sep file) /\
  (~ In sep save_path ->
   save_dir sep save_path = take (length save_path - 1) save_path).
Proof.
  unfold save_dir, slice_to. split.
  - intros Hin. destruct (rfind_split save_path Hin) as (f & H0 & Heq & Hf).
    exists f. replace (rfind sep save_path <? 0) with false
      by (symmetry; apply Z.ltb_ge; exact H0).
    split; assumption.
  - intros Hn. rewrite (rfind_absent save_path Hn). cbn.
    f_equal. lia.
Qed.

End SavePathFacts.

(** Paths as lists of code points: 'run/a/m.p' and 'm.pth', with the
    separator '/' (47). *)
Lemma X27_witness :
  (exists file,
     [114; 117; 110; 47; 97; 47; 109; 46; 112]
     = save_dir 47 [114; 117; 110; 47; 97; 47; 109; 46; 112]
       ++ 47 :: file /\
     ~ In 47 file) /\
  save_dir 47 [109; 46; 112; 116; 104] = [109; 46; 112; 116].
Proof.
  split.
  - apply (proj1 (X27_save_dir_splits_path 47
                    [114; 117; 110; 47; 97; 47; 109; 46; 112])).
    cbn. tauto.
  - apply (proj2 (X27_save_dir_splits_path 47 [109; 46; 112; 116; 104])).
    cbn. lia.
Defined.

(** ** Facts on [ModelLoss] *)

Section OutputsFacts.

Variable tensor : Type.
Variable tensor_add : tensor -> tensor -> tensor.

Lemma py_sum_losses (losses : list (ModelLoss tensor)) (acc : ModelLoss tensor) :
  py_sum tensor tensor_add (map (Loss tensor) losses) (Loss tensor acc)
  = inr (Loss tensor
           (fold_left
              (fun a l => mk_ModelLoss tensor
                            (tensor_add (chunker_loss tensor a)
                               (chunker_loss tensor l)))
              losses acc)).
Proof.
  revert acc. induction losses as [| l losses IH]; intros acc;
    cbn [map py_sum fold_left]; [reflexivity |].
  cbn. apply IH.
Qed.

(** X28. [ModelLoss.__radd__] reads [other.chunker_loss], so adding a
    [ModelLoss] to the integer a plain [sum] starts from raises
    AttributeError: [sum] over a non-empty list of losses never returns,
    while [sum] started from a [ModelLoss] returns the loss that
    accumulates every [chunker_loss] from left to right. *)
Theorem X28_sum_of_losses_needs_loss_start
  (l : ModelLoss tensor) (losses : list (ModelLoss tensor)) (z : Z) :
  py_sum tensor tensor_add (map (Loss tensor) (l :: losses)) (Number tensor z)
    = inl AttributeError /\
  py_sum tensor tensor_add (map (Loss tensor) losses) (Loss tensor l)
    = inr (Loss tensor
             (mk_ModelLoss tensor
                (fold_left tensor_add (map (chunker_loss tensor) losses)
                   (chunker_loss tensor l)))).
Proof.
  split; [reflexivity |].
  rewrite py_sum_losses. do 2 f_equal.
  revert l. induction losses as [| x losses IH]; intros l;
    cbn [fold_left map].
  - destruct l; reflexivity.
  - rewrite IH. reflexivity.
Qed.

End OutputsFacts.
